(** * Template semantics checker of the Angular compiler CLI (ngtsc)

    A shallow embedding of
    [packages/compiler-cli/src/ngtsc/typecheck/template_semantics/src/template_semantics_checker.ts]
    and of
    [packages/compiler-cli/src/ngtsc/validation/src/rules/deprecated_usages_rule.ts].

    The checker walks the template nodes of a component, hands the
    handler expression of every bound event to an expression visitor and
    reports writes to read-only template variables.  The diagnostics
    array that the visitors share is threaded through every function as
    an explicit state: a method [m(args): void] that may push to
    [this.diagnostics] becomes [m args : Diagnostics -> Diagnostics]. *)

From Stdlib Require Import List String ZArith Bool Arith Lia Permutation.
Import ListNotations.
Open Scope string_scope.

Set Warnings "-notation-for-abbreviation".

(** ** Source locations *)

(** [ParseSourceFile], [ParseLocation] and [ParseSourceSpan] of
    [@angular/compiler]: a span is a pair of locations, a location an
    offset into a template file. *)
Record ParseSourceFile : Type := { url : string }.
Record ParseLocation : Type := { file : ParseSourceFile; offset : nat }.
Record ParseSourceSpan : Type := { start : ParseLocation; end_ : ParseLocation }.

(** [ts.SourceFile] and [ts.ClassDeclaration], as far as the checker
    looks into them. *)
Record SourceFile : Type := { fileName : string }.
Record ClassDeclaration : Type :=
  { className : string; getSourceFile : SourceFile }.

(** ** Expression trees *)

(** Modelled from the spec: the expression classes of [@angular/compiler]
    (section 3, Expression Node), which live outside the two source files.
    Every node is a JavaScript object; its identity is the [oid] it
    carries, so that [a !== b] on two nodes is [oid a <> oid b].  The
    fields are those that the default traversal descends into. *)
Definition oid : Type := nat.

Scheme All for list.

Inductive AST : Type :=
| EmptyExpr (o : oid)
| ImplicitReceiver (o : oid)
| ThisReceiver (o : oid)
| LiteralPrimitive (o : oid) (value : string)
| PropertyRead (o : oid) (receiver : AST) (name : string)
| PropertyWrite (o : oid) (receiver : AST) (name : string) (value : AST)
| SafePropertyRead (o : oid) (receiver : AST) (name : string)
| KeyedRead (o : oid) (receiver key : AST)
| KeyedWrite (o : oid) (receiver key value : AST)
| Binary (o : oid) (operation : string) (left right : AST)
| PrefixNot (o : oid) (expression : AST)
| Conditional (o : oid) (condition trueExp falseExp : AST)
| Chain (o : oid) (expressions : list AST)
| Call (o : oid) (receiver : AST) (args : list AST)
| BindingPipe (o : oid) (exp : AST) (name : string) (args : list AST)
| LiteralArray (o : oid) (expressions : list AST)
| ASTWithSource (o : oid) (ast : AST) (source : option string).

(** The identity of a node. *)
Definition oid_of (a : AST) : oid :=
  match a with
  | EmptyExpr o | ImplicitReceiver o | ThisReceiver o
  | LiteralPrimitive o _ | PropertyRead o _ _ | PropertyWrite o _ _ _
  | SafePropertyRead o _ _ | KeyedRead o _ _ | KeyedWrite o _ _ _
  | Binary o _ _ _ | PrefixNot o _ | Conditional o _ _ _ | Chain o _
  | Call o _ _ | BindingPipe o _ _ _ | LiteralArray o _
  | ASTWithSource o _ _ => o
  end.

(** [a === b] on two expression objects. *)
Definition same_object (a b : AST) : bool := Nat.eqb (oid_of a) (oid_of b).

(** The property access [ast.receiver]; [None] is JavaScript's
    [undefined] on a node without that field. *)
Definition receiver_of (a : AST) : option AST :=
  match a with
  | PropertyRead _ r _ | PropertyWrite _ r _ _ | SafePropertyRead _ r _
  | KeyedRead _ r _ | KeyedWrite _ r _ _ | Call _ r _ => Some r
  | _ => None
  end.

(** [x instanceof ImplicitReceiver].  In the compiler [ThisReceiver]
    extends [ImplicitReceiver], so both classes pass the test. *)
Definition instanceofImplicitReceiver (x : option AST) : bool :=
  match x with
  | Some (ImplicitReceiver _) | Some (ThisReceiver _) => true
  | _ => false
  end.

(** ** Template nodes *)

Inductive ParsedEventType : Type := Regular | Animation | TwoWay.

Module TmplAstVariable.
Record t : Type :=
  { name : string;
    value : string;
    sourceSpan : ParseSourceSpan;
    keySpan : ParseSourceSpan;
    valueSpan : option ParseSourceSpan }.
End TmplAstVariable.

Module TmplAstLetDeclaration.
Record t : Type :=
  { name : string;
    value : AST;
    sourceSpan : ParseSourceSpan;
    nameSpan : ParseSourceSpan;
    valueSpan : ParseSourceSpan }.
End TmplAstLetDeclaration.

Module TmplAstReference.
Record t : Type :=
  { name : string; value : string; sourceSpan : ParseSourceSpan }.
End TmplAstReference.

Module TmplAstTextAttribute.
Record t : Type :=
  { name : string; value : string; sourceSpan : ParseSourceSpan }.
End TmplAstTextAttribute.

Module TmplAstBoundAttribute.
Record t : Type :=
  { name : string; value : AST; sourceSpan : ParseSourceSpan }.
End TmplAstBoundAttribute.

Module TmplAstBoundEvent.
Record t : Type :=
  { name : string;
    type : ParsedEventType;
    handler : AST;
    sourceSpan : ParseSourceSpan;
    handlerSpan : ParseSourceSpan }.
End TmplAstBoundEvent.

(** Modelled from the spec: the template node classes of
    [@angular/compiler] (section 3, Template Node), which live outside the
    two source files: the containers (element, template, content), the
    bindings and the leaves. *)
Inductive TmplAstNode : Type :=
| NElement (name : string)
    (attributes : list TmplAstTextAttribute.t)
    (inputs : list TmplAstBoundAttribute.t)
    (outputs : list TmplAstBoundEvent.t)
    (children : list TmplAstNode)
    (references : list TmplAstReference.t)
| NTemplate (tagName : option string)
    (attributes : list TmplAstTextAttribute.t)
    (inputs : list TmplAstBoundAttribute.t)
    (outputs : list TmplAstBoundEvent.t)
    (children : list TmplAstNode)
    (references : list TmplAstReference.t)
    (variables : list TmplAstVariable.t)
| NContent (selector : string)
    (attributes : list TmplAstTextAttribute.t)
    (children : list TmplAstNode)
| NText (value : string)
| NBoundText (value : AST)
| NTextAttribute (a : TmplAstTextAttribute.t)
| NBoundAttribute (a : TmplAstBoundAttribute.t)
| NBoundEvent (e : TmplAstBoundEvent.t)
| NVariable (v : TmplAstVariable.t)
| NReference (r : TmplAstReference.t)
| NLetDeclaration (l : TmplAstLetDeclaration.t).

(** What [getExpressionTarget] resolves an expression to:
    [TmplAstReference | TmplAstVariable | TmplAstLetDeclaration]; [null]
    is [None] of the option around it. *)
Inductive TemplateEntity : Type :=
| EReference (r : TmplAstReference.t)
| EVariable (v : TmplAstVariable.t)
| ELetDeclaration (l : TmplAstLetDeclaration.t).

(** The parameter type [TmplAstVariable | TmplAstLetDeclaration] of
    [makeIllegalTemplateVarDiagnostic]. *)
Definition VarOrLet : Type := (TmplAstVariable.t + TmplAstLetDeclaration.t)%type.

Definition entity_of (target : VarOrLet) : TemplateEntity :=
  match target with inl v => EVariable v | inr l => ELetDeclaration l end.

(** [target.name] on either class. *)
Definition target_name (target : VarOrLet) : string :=
  match target with
  | inl v => TmplAstVariable.name v
  | inr l => TmplAstLetDeclaration.name l
  end.

(** ** Diagnostics *)

(** [ts.DiagnosticCategory]. *)
Inductive DiagnosticCategory : Type := Warning | Error | Suggestion | Message.

(** The member of [ErrorCode] that the checker reports. *)
Inductive ErrorCode : Type := WRITE_TO_READ_ONLY_VARIABLE.

(** One entry of the [relatedMessages] array literal. *)
Record RelatedMessage : Type :=
  { text : string;
    rel_start : nat;
    rel_end : nat;
    sourceFile : SourceFile }.

(** Modelled from the spec: [TemplateDiagnostic] and
    [TemplateTypeChecker.makeTemplateDiagnostic], which live outside the
    two source files.  Section 3 and section 6 of the spec give a diagnostic
    a severity, a code, a message, a primary span and an ordered list of
    secondary annotations, built by
    [makeDiagnostic(declaration, primarySpan, severity, code, message,
    secondaryAnnotations)]: the diagnostic records the arguments of the
    call. *)
Record TemplateDiagnostic : Type :=
  { diag_component : ClassDeclaration;
    diag_span : ParseSourceSpan;
    category : DiagnosticCategory;
    code : Z;
    messageText : string;
    relatedMessages : list RelatedMessage }.

Definition makeTemplateDiagnostic (clazz : ClassDeclaration)
    (sourceSpan : ParseSourceSpan) (cat : DiagnosticCategory) (errorCode : Z)
    (message : string) (related : list RelatedMessage) : TemplateDiagnostic :=
  {| diag_component := clazz;
     diag_span := sourceSpan;
     category := cat;
     code := errorCode;
     messageText := message;
     relatedMessages := related |}.

(** The array [diagnostics] that both expression visitors hold. *)
Definition Diagnostics : Type := list TemplateDiagnostic.

(** [diagnostics.push(x)] *)
Definition push (diagnostics : Diagnostics) (x : TemplateDiagnostic)
    : Diagnostics :=
  (diagnostics ++ [x])%list.

(** A loop [for (const x of l) f(x)], or [l.forEach(f)], whose body may
    push to the array. *)
Definition forEach {A : Type} (f : A -> Diagnostics -> Diagnostics)
    (l : list A) (d : Diagnostics) : Diagnostics :=
  fold_left (fun acc x => f x acc) l d.

(** ** The type-checking service *)

(** The methods of the [TemplateTypeChecker] interface that the checker
    calls, over the service's own type of symbols. *)
Record TemplateTypeChecker (Symbol : Type) : Type :=
  { getTemplate : ClassDeclaration -> option (list TmplAstNode);
    getExpressionTarget : AST -> ClassDeclaration -> option TemplateEntity;
    getSymbolOfNode : TemplateEntity -> ClassDeclaration -> option Symbol }.

Arguments getTemplate {Symbol} _ _.
Arguments getExpressionTarget {Symbol} _ _ _.
Arguments getSymbolOfNode {Symbol} _ _ _.

(** ** The visitors *)

Section Checker.

(** The symbols of the type-checking service, [isSignalReference] of
    [typecheck/src/symbol_util] and [ngErrorCode] of [diagnostics]:
    imported by the checker, defined outside the two source files. *)
Context {Symbol : Type}.
Variable isSignalReference : Symbol -> bool.
Variable ngErrorCode : ErrorCode -> Z.

(** [RecursiveAstVisitor] of [@angular/compiler], the base class of
    both expression visitors. *)
Section RecursiveAstVisitor.

(** What a subclass adds: the statements that its overrides of
    [visitPropertyRead] and [visitPropertyWrite] run after the call
    to [super], and whether it replaces [visitAll] by an empty
    body. *)
Variable afterPropertyRead : AST -> TmplAstNode -> Diagnostics -> Diagnostics.
Variable afterPropertyWrite : AST -> TmplAstNode -> Diagnostics -> Diagnostics.
Variable emptyVisitAll : bool.

(** Modelled from the spec: [RecursiveAstVisitor.visit], which lives
    outside the two source files (section 4.2: every expression node
    is visited depth-first, children only through the recursive
    calls of a node's default traversal).  [visit ast context] is
    [ast.visit(this, context)]: the node's own [visitX] method,
    which visits the children in field order, lists through
    [visitAll]; a source wrapper hands the visitor to the wrapped
    expression. *)
Fixpoint visit (ast : AST) (context : TmplAstNode) (d : Diagnostics)
    {struct ast} : Diagnostics :=
  let visitAll (asts : list AST) (d : Diagnostics) : Diagnostics :=
    if emptyVisitAll then d
    else forEach (fun a => visit a context) asts d in
  match ast with
  | EmptyExpr _ | ImplicitReceiver _ | ThisReceiver _
  | LiteralPrimitive _ _ => d
  | PropertyRead _ receiver _ =>
      afterPropertyRead ast context (visit receiver context d)
  | PropertyWrite _ receiver _ value =>
      afterPropertyWrite ast context
        (visit value context (visit receiver context d))
  | SafePropertyRead _ receiver _ => visit receiver context d
  | KeyedRead _ receiver key =>
      visit key context (visit receiver context d)
  | KeyedWrite _ receiver key value =>
      visit value context (visit key context (visit receiver context d))
  | Binary _ _ lhs rhs =>
      visit rhs context (visit lhs context d)
  | PrefixNot _ expression => visit expression context d
  | Conditional _ condition trueExp falseExp =>
      visit falseExp context
        (visit trueExp context (visit condition context d))
  | Chain _ expressions => visitAll expressions d
  | Call _ receiver args => visitAll args (visit receiver context d)
  | BindingPipe _ exp _ args => visitAll args (visit exp context d)
  | LiteralArray _ expressions => visitAll expressions d
  | ASTWithSource _ ast' _ => visit ast' context d
  end.

End RecursiveAstVisitor.

Variable templateTypeChecker : TemplateTypeChecker Symbol.

Section Visitors.

Variable component : ClassDeclaration.

(** [function unwrapAstWithSource(ast)] *)
Definition unwrapAstWithSource (ast : AST) : AST :=
  match ast with
  | ASTWithSource _ inner _ => inner
  | _ => ast
  end.

(** The declaration span that [makeIllegalTemplateVarDiagnostic]
    points at: [target.valueSpan || target.sourceSpan] for a
    variable, [target.sourceSpan] for a [@let] declaration. *)
Definition declaration_span (target : VarOrLet) : ParseSourceSpan :=
  match target with
  | inl v =>
      match TmplAstVariable.valueSpan v with
      | Some s => s
      | None => TmplAstVariable.sourceSpan v
      end
  | inr l => TmplAstLetDeclaration.sourceSpan l
  end.

(** [ExpressionsSemanticsVisitor.makeIllegalTemplateVarDiagnostic] *)
Definition makeIllegalTemplateVarDiagnostic (target : VarOrLet)
    (expressionNode : TmplAstBoundEvent.t) (errorMessage : string)
    : TemplateDiagnostic :=
  let span := declaration_span target in
  makeTemplateDiagnostic
    component
    (TmplAstBoundEvent.handlerSpan expressionNode)
    Error
    (ngErrorCode WRITE_TO_READ_ONLY_VARIABLE)
    errorMessage
    [ {| text := "'" ++ target_name target ++ "' is declared here.";
         rel_start := offset (start span);
         rel_end := offset (end_ span);
         sourceFile := getSourceFile component |} ].

(** The three messages of the two rules. *)
Definition assignmentMessage (name : string) : string :=
  "Cannot use variable '" ++ name ++
  "' as the left-hand side of an assignment expression. Template variables are read-only.".

Definition twoWayVariableMessage (name : string) : string :=
  "Cannot use a non-signal variable '" ++ name ++
  "' in a two-way binding expression. Template variables are read-only.".

Definition twoWayLetMessage (name : string) : string :=
  "Cannot use non-signal @let declaration '" ++ name ++
  "' in a two-way binding expression. @let declarations are read-only.".

(** [ExpressionsSemanticsVisitor.checkForIllegalWriteInEventBinding] *)
Definition checkForIllegalWriteInEventBinding (ast : AST)
    (context : TmplAstNode) (diagnostics : Diagnostics) : Diagnostics :=
  match context with
  | NBoundEvent event =>
      if negb (instanceofImplicitReceiver (receiver_of ast)) then diagnostics
      else
        match getExpressionTarget templateTypeChecker ast component with
        | Some (EVariable target) =>
            push diagnostics
              (makeIllegalTemplateVarDiagnostic (inl target) event
                 (assignmentMessage (TmplAstVariable.name target)))
        | _ => diagnostics
        end
  | _ => diagnostics
  end.

(** The test [target instanceof TmplAstVariable] or
    [target instanceof TmplAstLetDeclaration] on a resolved target,
    with the narrowed target when it passes. *)
Definition asVarOrLet (target : option TemplateEntity) : option VarOrLet :=
  match target with
  | Some (EVariable v) => Some (inl v)
  | Some (ELetDeclaration l) => Some (inr l)
  | _ => None
  end.

(** [ExpressionsSemanticsVisitor.checkForIllegalWriteInTwoWayBinding] *)
Definition checkForIllegalWriteInTwoWayBinding (ast : AST)
    (context : TmplAstNode) (diagnostics : Diagnostics) : Diagnostics :=
  match context with
  | NBoundEvent event =>
      match TmplAstBoundEvent.type event with
      | TwoWay =>
          if negb (instanceofImplicitReceiver (receiver_of ast))
             || negb (same_object ast
                        (unwrapAstWithSource (TmplAstBoundEvent.handler event)))
          then diagnostics
          else
            match asVarOrLet
                    (getExpressionTarget templateTypeChecker ast component) with
            | None => diagnostics
            | Some target =>
                match getSymbolOfNode templateTypeChecker
                        (entity_of target) component with
                | Some symbol =>
                    if negb (isSignalReference symbol) then
                      let errorMessage :=
                        match target with
                        | inl v => twoWayVariableMessage (TmplAstVariable.name v)
                        | inr l => twoWayLetMessage (TmplAstLetDeclaration.name l)
                        end in
                      push diagnostics
                        (makeIllegalTemplateVarDiagnostic target event
                           errorMessage)
                    else diagnostics
                | None => diagnostics
                end
            end
      | _ => diagnostics
      end
  | _ => diagnostics
  end.

(** [ExpressionsSemanticsVisitor]: the two overrides call [super]
    and then their check; [visitAll] is inherited. *)
Definition ExpressionsSemanticsVisitor_visit
    : AST -> TmplAstNode -> Diagnostics -> Diagnostics :=
  visit checkForIllegalWriteInTwoWayBinding
        checkForIllegalWriteInEventBinding
        false.

(** The expression visitor with Rule B taken out: what the visit of
    a handler is compared with where Rule B stays silent. *)
Definition ruleA_visit
    : AST -> TmplAstNode -> Diagnostics -> Diagnostics :=
  visit (fun _ _ d => d) checkForIllegalWriteInEventBinding false.

(** [DeprecatedSemanticsVisitor]: no override of a node method, and
    a [visitAll] whose body is a lone [debugger] statement. *)
Definition DeprecatedSemanticsVisitor_visit
    : AST -> TmplAstNode -> Diagnostics -> Diagnostics :=
  visit (fun _ _ d => d) (fun _ _ d => d) true.

(** [TemplateSemanticsVisitor.visitBoundAttribute]; the inherited
    method has an empty body. *)
Definition visitBoundAttribute (attribute : TmplAstBoundAttribute.t)
    (d : Diagnostics) : Diagnostics :=
  DeprecatedSemanticsVisitor_visit
    (TmplAstBoundAttribute.value attribute) (NBoundAttribute attribute) d.

(** [TemplateSemanticsVisitor.visitBoundEvent]; the inherited method
    has an empty body. *)
Definition visitBoundEvent (event : TmplAstBoundEvent.t)
    (d : Diagnostics) : Diagnostics :=
  let d := ExpressionsSemanticsVisitor_visit
             (TmplAstBoundEvent.handler event) (NBoundEvent event) d in
  DeprecatedSemanticsVisitor_visit
    (TmplAstBoundEvent.handler event) (NBoundEvent event) d.

(** Modelled from the spec: the node methods that
    [TemplateSemanticsVisitor] inherits from [TmplAstRecursiveVisitor],
    which lives outside the two source files (section 4.1: every
    node once, in document order, depth-first, descending into the
    children of the containers).  [visitNode node] is
    [node.visit(templateVisitor)]: an element visits its attributes,
    inputs, outputs, children and references, a template its
    variables as well; the leaves other than the two bindings have
    empty methods. *)
Fixpoint visitNode (node : TmplAstNode) (d : Diagnostics)
    {struct node} : Diagnostics :=
  let visitChildren := forEach visitNode in
  match node with
  | NElement _ _ inputs outputs children _
  | NTemplate _ _ inputs outputs children _ _ =>
      visitChildren children
        (forEach visitBoundEvent outputs
           (forEach visitBoundAttribute inputs d))
  | NContent _ _ children => visitChildren children d
  | NBoundAttribute attribute => visitBoundAttribute attribute d
  | NBoundEvent event => visitBoundEvent event d
  | NText _ | NBoundText _ | NTextAttribute _ | NVariable _
  | NReference _ | NLetDeclaration _ => d
  end.

(** [TemplateSemanticsVisitor.visit]: a new array, the two
    expression visitors and the template visitor over it, then
    [nodes.forEach((node) => node.visit(templateVisitor))]. *)
Definition TemplateSemanticsVisitor_visit (nodes : list TmplAstNode)
    : Diagnostics :=
  let diagnostics : Diagnostics := [] in
  forEach visitNode nodes diagnostics.

End Visitors.

(** [TemplateSemanticsCheckerImpl.getDiagnosticsForComponent] *)
Definition getDiagnosticsForComponent (component : ClassDeclaration)
    : Diagnostics :=
  match getTemplate templateTypeChecker component with
  | Some template => TemplateSemanticsVisitor_visit component template
  | None => []
  end.

End Checker.

(** ** Positions in an expression tree *)

(** The nodes strictly below a node, in the order of the traversal. *)
Fixpoint descendants (a : AST) : list AST :=
  let below (x : AST) : list AST := x :: descendants x in
  (match a with
   | EmptyExpr _ | ImplicitReceiver _ | ThisReceiver _
   | LiteralPrimitive _ _ => []
   | PropertyRead _ receiver _ | SafePropertyRead _ receiver _ =>
       below receiver
   | PropertyWrite _ receiver _ value => below receiver ++ below value
   | KeyedRead _ receiver key => below receiver ++ below key
   | KeyedWrite _ receiver key value =>
       below receiver ++ below key ++ below value
   | Binary _ _ lhs rhs => below lhs ++ below rhs
   | PrefixNot _ expression => below expression
   | Conditional _ condition trueExp falseExp =>
       below condition ++ below trueExp ++ below falseExp
   | Chain _ expressions | LiteralArray _ expressions =>
       flat_map below expressions
   | Call _ receiver args | BindingPipe _ receiver _ args =>
       below receiver ++ flat_map below args
   | ASTWithSource _ inner _ => below inner
   end)%list.

(** A node and everything below it. *)
Definition subterms (a : AST) : list AST := a :: descendants a.

Fixpoint nodupb (l : list nat) : bool :=
  match l with
  | [] => true
  | x :: l' => negb (existsb (Nat.eqb x) l') && nodupb l'
  end.

(** The expression is a tree of objects: no object sits at two
    positions. *)
Definition distinct_objects (a : AST) : bool :=
  nodupb (map oid_of (subterms a)).

Definition isPropertyRead (a : AST) : bool :=
  match a with PropertyRead _ _ _ => true | _ => false end.

(** A bare name: a property read on the implicit receiver. *)
Definition isBareRead (a : AST) : bool :=
  isPropertyRead a && instanceofImplicitReceiver (receiver_of a).

(** ** The deprecated-usages rule *)

(** A JavaScript [Error] object and the way a method body completes. *)
Record JsError : Type := { message : string }.

Inductive completion (A : Type) : Type :=
| Return (a : A)
| Throw (e : JsError).

Arguments Return {A} _.
Arguments Throw {A} _.

(** The result type [Diagnostic | Diagnostic[] | null] of [checkNode]. *)
Inductive CheckNodeResult (Diagnostic : Type) : Type :=
| OneDiagnostic (d : Diagnostic)
| ManyDiagnostics (l : list Diagnostic)
| Null.

Arguments OneDiagnostic {Diagnostic} _.
Arguments ManyDiagnostics {Diagnostic} _.
Arguments Null {Diagnostic}.

(** [deprecated_usages_rule.ts] holds two listings of the class.  In
    the first [checkNode] is a lone [throw]. *)
Module DeprecatedUsagesRule.
Definition checkNode {Node Diagnostic : Type} (node : Node)
    : completion (CheckNodeResult Diagnostic) :=
  Throw {| message := "not implemented" |}.
End DeprecatedUsagesRule.

(** In the second listing a [debugger] statement, which has no effect
    on the program, comes before the [throw]. *)
Module DeprecatedUsagesRule2.
Definition checkNode {Node Diagnostic : Type} (node : Node)
    : completion (CheckNodeResult Diagnostic) :=
  let debugger := tt in
  Throw {| message := "not implemented" |}.
End DeprecatedUsagesRule2.

(** ** The order of a traversal *)

(** The property reads and writes that [visit] reaches below and at a
    node, each at the moment its override runs its check: after the
    children.  A visitor with an empty [visitAll] does not enter a list
    of expressions. *)
Fixpoint visitOrder (emptyVisitAll : bool) (a : AST) : list AST :=
  let all (l : list AST) : list AST :=
    if emptyVisitAll then [] else flat_map (visitOrder emptyVisitAll) l in
  (match a with
   | EmptyExpr _ | ImplicitReceiver _ | ThisReceiver _
   | LiteralPrimitive _ _ => []
   | PropertyRead _ receiver _ => visitOrder emptyVisitAll receiver ++ [a]
   | PropertyWrite _ receiver _ value =>
       visitOrder emptyVisitAll receiver ++ visitOrder emptyVisitAll value ++ [a]
   | SafePropertyRead _ receiver _ => visitOrder emptyVisitAll receiver
   | KeyedRead _ receiver key =>
       visitOrder emptyVisitAll receiver ++ visitOrder emptyVisitAll key
   | KeyedWrite _ receiver key value =>
       visitOrder emptyVisitAll receiver ++ visitOrder emptyVisitAll key
       ++ visitOrder emptyVisitAll value
   | Binary _ _ lhs rhs =>
       visitOrder emptyVisitAll lhs ++ visitOrder emptyVisitAll rhs
   | PrefixNot _ expression => visitOrder emptyVisitAll expression
   | Conditional _ condition trueExp falseExp =>
       visitOrder emptyVisitAll condition ++ visitOrder emptyVisitAll trueExp
       ++ visitOrder emptyVisitAll falseExp
   | Chain _ expressions | LiteralArray _ expressions => all expressions
   | Call _ receiver args | BindingPipe _ receiver _ args =>
       visitOrder emptyVisitAll receiver ++ all args
   | ASTWithSource _ inner _ => visitOrder emptyVisitAll inner
   end)%list.

(** The method that [ast.visit(visitor, context)] ends in, seen from the
    two extension points of [visit]. *)
Definition dispatch
    (afterPropertyRead afterPropertyWrite
       : AST -> TmplAstNode -> Diagnostics -> Diagnostics)
    (a : AST) (context : TmplAstNode) (d : Diagnostics) : Diagnostics :=
  match a with
  | PropertyRead _ _ _ => afterPropertyRead a context d
  | PropertyWrite _ _ _ _ => afterPropertyWrite a context d
  | _ => d
  end.

(** The bound events below and at a template node, in the order in
    which [visitNode] reaches them. *)
Fixpoint boundEvents (node : TmplAstNode) : list TmplAstBoundEvent.t :=
  (match node with
   | NElement _ _ _ outputs children _
   | NTemplate _ _ _ outputs children _ _ =>
       outputs ++ flat_map boundEvents children
   | NContent _ _ children => flat_map boundEvents children
   | NBoundEvent event => [event]
   | NText _ | NBoundText _ | NTextAttribute _ | NBoundAttribute _
   | NVariable _ | NReference _ | NLetDeclaration _ => []
   end)%list.

(** A state transformer that only pushes. *)
Definition append_only (f : Diagnostics -> Diagnostics) : Prop :=
  forall d, f d = (d ++ f [])%list.

(** ** Where a diagnostic comes from *)

(** The diagnostics that the two rules of [ExpressionsSemanticsVisitor]
    push: Rule A for a write to a variable in an event binding, Rule B
    for a variable or a [@let] declaration at the root of a two-way
    binding. *)
Inductive RuleDiagnostic (ngErrorCode : ErrorCode -> Z)
    (component : ClassDeclaration) : TemplateDiagnostic -> Prop :=
| RuleA_variable (v : TmplAstVariable.t) (event : TmplAstBoundEvent.t) :
    RuleDiagnostic ngErrorCode component
      (makeIllegalTemplateVarDiagnostic ngErrorCode component (inl v) event
         (assignmentMessage (TmplAstVariable.name v)))
| RuleB_variable (v : TmplAstVariable.t) (event : TmplAstBoundEvent.t) :
    TmplAstBoundEvent.type event = TwoWay ->
    RuleDiagnostic ngErrorCode component
      (makeIllegalTemplateVarDiagnostic ngErrorCode component (inl v) event
         (twoWayVariableMessage (TmplAstVariable.name v)))
| RuleB_let (l : TmplAstLetDeclaration.t) (event : TmplAstBoundEvent.t) :
    TmplAstBoundEvent.type event = TwoWay ->
    RuleDiagnostic ngErrorCode component
      (makeIllegalTemplateVarDiagnostic ngErrorCode component (inr l) event
         (twoWayLetMessage (TmplAstLetDeclaration.name l))).

(** ** The wording of the specification *)

(** The value-initializer span of a declaration, when it has one: the
    optional [valueSpan] of a variable, the [valueSpan] of a [@let]
    declaration. *)
Definition value_initializer_span (target : VarOrLet)
    : option ParseSourceSpan :=
  match target with
  | inl v => TmplAstVariable.valueSpan v
  | inr l => Some (TmplAstLetDeclaration.valueSpan l)
  end.

(** The full span of a declaration. *)
Definition full_declaration_span (target : VarOrLet) : ParseSourceSpan :=
  match target with
  | inl v => TmplAstVariable.sourceSpan v
  | inr l => TmplAstLetDeclaration.sourceSpan l
  end.

(** Section 4.3 in its own words: the value-initializer span if present,
    else the full declaration span. *)
Definition spec_annotation_span (target : VarOrLet) : ParseSourceSpan :=
  match value_initializer_span target with
  | Some s => s
  | None => full_declaration_span target
  end.

(** The template file that owns a declaration. *)
Definition declaration_file (target : VarOrLet) : ParseSourceFile :=
  file (start (full_declaration_span target)).

(** The offsets of an annotation, and those of a span. *)
Definition annotation_offsets (r : RelatedMessage) : nat * nat :=
  (rel_start r, rel_end r).

Definition span_offsets (s : ParseSourceSpan) : nat * nat :=
  (offset (start s), offset (end_ s)).

(** ** A component with an external template *)

Module Fixture.

Definition ts_file : SourceFile := {| fileName := "app.component.ts" |}.
Definition html_file : ParseSourceFile := {| url := "app.component.html" |}.

Definition AppComponent : ClassDeclaration :=
  {| className := "AppComponent"; getSourceFile := ts_file |}.

(** A class without a template. *)
Definition Plain : ClassDeclaration :=
  {| className := "Plain"; getSourceFile := ts_file |}.

Definition span (a b : nat) : ParseSourceSpan :=
  {| start := {| file := html_file; offset := a |};
     end_ := {| file := html_file; offset := b |} |}.

(** [<ng-template let-item let-count="total" let-sig="model"
    let-ghost>] and [@let sum = 1;] *)
Definition item : TmplAstVariable.t :=
  {| TmplAstVariable.name := "item";
     TmplAstVariable.value := "$implicit";
     TmplAstVariable.sourceSpan := span 13 21;
     TmplAstVariable.keySpan := span 17 21;
     TmplAstVariable.valueSpan := None |}.

Definition count : TmplAstVariable.t :=
  {| TmplAstVariable.name := "count";
     TmplAstVariable.value := "total";
     TmplAstVariable.sourceSpan := span 22 39;
     TmplAstVariable.keySpan := span 26 31;
     TmplAstVariable.valueSpan := Some (span 33 38) |}.

Definition sig : TmplAstVariable.t :=
  {| TmplAstVariable.name := "sig";
     TmplAstVariable.value := "model";
     TmplAstVariable.sourceSpan := span 40 55;
     TmplAstVariable.keySpan := span 44 47;
     TmplAstVariable.valueSpan := Some (span 49 54) |}.

Definition ghost : TmplAstVariable.t :=
  {| TmplAstVariable.name := "ghost";
     TmplAstVariable.value := "$implicit";
     TmplAstVariable.sourceSpan := span 56 65;
     TmplAstVariable.keySpan := span 60 65;
     TmplAstVariable.valueSpan := None |}.

Definition sum : TmplAstLetDeclaration.t :=
  {| TmplAstLetDeclaration.name := "sum";
     TmplAstLetDeclaration.value := LiteralPrimitive 90 "1";
     TmplAstLetDeclaration.sourceSpan := span 70 82;
     TmplAstLetDeclaration.nameSpan := span 75 78;
     TmplAstLetDeclaration.valueSpan := span 81 82 |}.

(** A bare name [x], as [PropertyRead] on the implicit receiver. *)
Definition bare (o : oid) (x : string) : AST :=
  PropertyRead o (ImplicitReceiver (S o)) x.

Definition event (n : string) (k : ParsedEventType) (h : AST)
    (a b : nat) : TmplAstBoundEvent.t :=
  {| TmplAstBoundEvent.name := n;
     TmplAstBoundEvent.type := k;
     TmplAstBoundEvent.handler := h;
     TmplAstBoundEvent.sourceSpan := span (a - 10) (S b);
     TmplAstBoundEvent.handlerSpan := span a b |}.

(** [(click)="item = 1"] *)
Definition click_item : TmplAstBoundEvent.t :=
  event "click" Regular
    (ASTWithSource 100
       (PropertyWrite 101 (ImplicitReceiver 102) "item"
          (LiteralPrimitive 103 "1"))
       (Some "item = 1"))
    110 118.

(** [(click)="sum = item"]: a write to a [@let] declaration. *)
Definition click_sum : TmplAstBoundEvent.t :=
  event "click" Regular
    (ASTWithSource 120
       (PropertyWrite 121 (ImplicitReceiver 122) "sum" (bare 123 "item"))
       (Some "sum = item"))
    130 140.

(** [[(ngModel)]="item"] *)
Definition model_item : TmplAstBoundEvent.t :=
  event "ngModelChange" TwoWay
    (ASTWithSource 200 (bare 201 "item") (Some "item")) 210 214.

(** [[(ngModel)]="sig"] *)
Definition model_sig : TmplAstBoundEvent.t :=
  event "ngModelChange" TwoWay
    (ASTWithSource 220 (bare 221 "sig") (Some "sig")) 230 233.

(** [[(ngModel)]="sum"] *)
Definition model_sum : TmplAstBoundEvent.t :=
  event "ngModelChange" TwoWay
    (ASTWithSource 240 (bare 241 "sum") (Some "sum")) 250 253.

(** [[(ngModel)]="ghost"]: the service has no symbol for [ghost]. *)
Definition model_ghost : TmplAstBoundEvent.t :=
  event "ngModelChange" TwoWay
    (ASTWithSource 260 (bare 261 "ghost") (Some "ghost")) 270 275.

(** [[(ngModel)]="item.label"]: the read of [item] is nested. *)
Definition model_nested : TmplAstBoundEvent.t :=
  event "ngModelChange" TwoWay
    (ASTWithSource 280 (PropertyRead 281 (bare 282 "item") "label")
       (Some "item.label"))
    290 300.

(** [[(ngModel)]="items[item]"]: the read of [item] is nested in a
    keyed read. *)
Definition model_keyed : TmplAstBoundEvent.t :=
  event "ngModelChange" TwoWay
    (ASTWithSource 320
       (KeyedRead 321 (bare 322 "items") (bare 324 "item"))
       (Some "items[item]"))
    330 341.

(** [(click)="log(item)"]: a read in a plain event binding. *)
Definition click_read : TmplAstBoundEvent.t :=
  event "click" Regular
    (ASTWithSource 300
       (Call 301 (bare 302 "log") [bare 304 "item"]) (Some "log(item)"))
    310 319.

Definition title_attr : TmplAstBoundAttribute.t :=
  {| TmplAstBoundAttribute.name := "title";
     TmplAstBoundAttribute.value :=
       ASTWithSource 400 (bare 401 "item") (Some "item");
     TmplAstBoundAttribute.sourceSpan := span 410 424 |}.

Definition template : list TmplAstNode :=
  [ NLetDeclaration sum;
    NTemplate (Some "ng-template") [] [] []
      [ NElement "button" [] [title_attr] [click_item; click_read] [NText "ok"] [];
        NElement "input" [] [] [model_item] [] [];
        NElement "input" [] [] [model_sig] [] [];
        NElement "input" [] [] [model_sum; model_ghost] [] [];
        NContent "*" []
          [NElement "input" [] [] [model_nested; click_sum; model_keyed] [] []] ]
      [] [item; count; sig; ghost] ].

(** The type-checking service: names resolve to the declarations
    above, a symbol is its own signal flag, and [ghost] has none. *)
Definition resolve (x : string) : option TemplateEntity :=
  if String.eqb x "item" then Some (EVariable item)
  else if String.eqb x "count" then Some (EVariable count)
  else if String.eqb x "sig" then Some (EVariable sig)
  else if String.eqb x "ghost" then Some (EVariable ghost)
  else if String.eqb x "sum" then Some (ELetDeclaration sum)
  else None.

Definition entity_name (t : TemplateEntity) : string :=
  match t with
  | EReference r => TmplAstReference.name r
  | EVariable v => TmplAstVariable.name v
  | ELetDeclaration l => TmplAstLetDeclaration.name l
  end.

Definition checker : TemplateTypeChecker bool :=
  {| getTemplate := fun c =>
       if String.eqb (className c) "AppComponent" then Some template
       else None;
     getExpressionTarget := fun a _ =>
       match a with
       | PropertyRead _ (ImplicitReceiver _) x
       | PropertyWrite _ (ImplicitReceiver _) x _ => resolve x
       | _ => None
       end;
     getSymbolOfNode := fun t _ =>
       if String.eqb (entity_name t) "ghost" then None
       else Some (String.eqb (entity_name t) "sig") |}.

Definition isSignalReference (symbol : bool) : bool := symbol.

Definition ngErrorCode (c : ErrorCode) : Z := (-998005)%Z.

End Fixture.

(** ** The arrays of the process *)

(** The checker once more, with the arrays where JavaScript has them:
    in a store that outlives a call.  An array is known by its address;
    [const diagnostics = []] creates a new one, the constructors of the
    two expression visitors keep its address in their field
    [diagnostics], and [this.diagnostics.push(x)] writes to the array at
    that address.  The visitor objects themselves never change after
    their construction and are plain records. *)
Module Store.

Definition ref : Type := nat.

(** Every array of diagnostics that the process has created so far, by
    address. *)
Definition Heap : Type := list Diagnostics.

(** The array at an address. *)
Definition read (r : ref) (h : Heap) : option Diagnostics := nth_error h r.

(** The array literal [[]]: a new, empty array at an unused address. *)
Definition alloc (h : Heap) : ref * Heap :=
  (List.length h, (h ++ [[]])%list).

(** A change to the array at an address, the other arrays untouched. *)
Fixpoint modify (r : ref) (f : Diagnostics -> Diagnostics) (h : Heap) : Heap :=
  match h, r with
  | [], _ => []
  | d :: h', O => f d :: h'
  | d :: h', S r' => d :: modify r' f h'
  end.

(** [array.push(x)] on the array at [r]. *)
Definition array_push (r : ref) (x : TemplateDiagnostic) (h : Heap) : Heap :=
  modify r (fun d => push d x) h.

(** A loop whose body may write to the store. *)
Definition forEach {A : Type} (f : A -> Heap -> Heap) (l : list A) (h : Heap)
    : Heap :=
  fold_left (fun acc x => f x acc) l h.

Section Checker.

Context {Symbol : Type}.
Variable isSignalReference : Symbol -> bool.
Variable ngErrorCode : ErrorCode -> Z.

(** The private fields that the constructors of
    [ExpressionsSemanticsVisitor] and [DeprecatedSemanticsVisitor]
    declare. *)
Record ExpressionVisitor : Type :=
  { templateTypeChecker : TemplateTypeChecker Symbol;
    component : ClassDeclaration;
    diagnostics : ref }.

(** The private fields of [TemplateSemanticsVisitor]. *)
Record TemplateVisitor : Type :=
  { expressionVisitor : ExpressionVisitor;
    deprecatedVisitor : ExpressionVisitor }.

Section RecursiveAstVisitor.

Variable afterPropertyRead : AST -> TmplAstNode -> Heap -> Heap.
Variable afterPropertyWrite : AST -> TmplAstNode -> Heap -> Heap.
Variable emptyVisitAll : bool.

(** Modelled from the spec: [RecursiveAstVisitor.visit], as above,
    over the store. *)
Fixpoint visit (ast : AST) (context : TmplAstNode) (h : Heap)
    {struct ast} : Heap :=
  let visitAll (asts : list AST) (h : Heap) : Heap :=
    if emptyVisitAll then h
    else forEach (fun a => visit a context) asts h in
  match ast with
  | EmptyExpr _ | ImplicitReceiver _ | ThisReceiver _
  | LiteralPrimitive _ _ => h
  | PropertyRead _ receiver _ =>
      afterPropertyRead ast context (visit receiver context h)
  | PropertyWrite _ receiver _ value =>
      afterPropertyWrite ast context
        (visit value context (visit receiver context h))
  | SafePropertyRead _ receiver _ => visit receiver context h
  | KeyedRead _ receiver key =>
      visit key context (visit receiver context h)
  | KeyedWrite _ receiver key value =>
      visit value context (visit key context (visit receiver context h))
  | Binary _ _ lhs rhs =>
      visit rhs context (visit lhs context h)
  | PrefixNot _ expression => visit expression context h
  | Conditional _ condition trueExp falseExp =>
      visit falseExp context
        (visit trueExp context (visit condition context h))
  | Chain _ expressions => visitAll expressions h
  | Call _ receiver args => visitAll args (visit receiver context h)
  | BindingPipe _ exp _ args => visitAll args (visit exp context h)
  | LiteralArray _ expressions => visitAll expressions h
  | ASTWithSource _ ast' _ => visit ast' context h
  end.

End RecursiveAstVisitor.

(** [ExpressionsSemanticsVisitor.checkForIllegalWriteInEventBinding] *)
Definition checkForIllegalWriteInEventBinding (this : ExpressionVisitor)
    (ast : AST) (context : TmplAstNode) (h : Heap) : Heap :=
  match context with
  | NBoundEvent event =>
      if negb (instanceofImplicitReceiver (receiver_of ast)) then h
      else
        match getExpressionTarget (templateTypeChecker this) ast
                (component this) with
        | Some (EVariable target) =>
            array_push (diagnostics this)
              (makeIllegalTemplateVarDiagnostic ngErrorCode (component this)
                 (inl target) event
                 (assignmentMessage (TmplAstVariable.name target)))
              h
        | _ => h
        end
  | _ => h
  end.

(** [ExpressionsSemanticsVisitor.checkForIllegalWriteInTwoWayBinding] *)
Definition checkForIllegalWriteInTwoWayBinding (this : ExpressionVisitor)
    (ast : AST) (context : TmplAstNode) (h : Heap) : Heap :=
  match context with
  | NBoundEvent event =>
      match TmplAstBoundEvent.type event with
      | TwoWay =>
          if negb (instanceofImplicitReceiver (receiver_of ast))
             || negb (same_object ast
                        (unwrapAstWithSource (TmplAstBoundEvent.handler event)))
          then h
          else
            match asVarOrLet
                    (getExpressionTarget (templateTypeChecker this) ast
                       (component this)) with
            | None => h
            | Some target =>
                match getSymbolOfNode (templateTypeChecker this)
                        (entity_of target) (component this) with
                | Some symbol =>
                    if negb (isSignalReference symbol) then
                      let errorMessage :=
                        match target with
                        | inl v => twoWayVariableMessage (TmplAstVariable.name v)
                        | inr l => twoWayLetMessage (TmplAstLetDeclaration.name l)
                        end in
                      array_push (diagnostics this)
                        (makeIllegalTemplateVarDiagnostic ngErrorCode
                           (component this) target event errorMessage)
                        h
                    else h
                | None => h
                end
            end
      | _ => h
      end
  | _ => h
  end.

(** [expression.visit(visitor, context)] for an
    [ExpressionsSemanticsVisitor]. *)
Definition ExpressionsSemanticsVisitor_visit (this : ExpressionVisitor)
    : AST -> TmplAstNode -> Heap -> Heap :=
  visit (checkForIllegalWriteInTwoWayBinding this)
        (checkForIllegalWriteInEventBinding this)
        false.

(** [expression.visit(visitor, context)] for a
    [DeprecatedSemanticsVisitor]: no method of the class reads a field
    of [this]. *)
Definition DeprecatedSemanticsVisitor_visit (this : ExpressionVisitor)
    : AST -> TmplAstNode -> Heap -> Heap :=
  visit (fun _ _ h => h) (fun _ _ h => h) true.

(** [TemplateSemanticsVisitor.visitBoundAttribute] *)
Definition visitBoundAttribute (this : TemplateVisitor)
    (attribute : TmplAstBoundAttribute.t) (h : Heap) : Heap :=
  DeprecatedSemanticsVisitor_visit (deprecatedVisitor this)
    (TmplAstBoundAttribute.value attribute) (NBoundAttribute attribute) h.

(** [TemplateSemanticsVisitor.visitBoundEvent] *)
Definition visitBoundEvent (this : TemplateVisitor)
    (event : TmplAstBoundEvent.t) (h : Heap) : Heap :=
  let h := ExpressionsSemanticsVisitor_visit (expressionVisitor this)
             (TmplAstBoundEvent.handler event) (NBoundEvent event) h in
  DeprecatedSemanticsVisitor_visit (deprecatedVisitor this)
    (TmplAstBoundEvent.handler event) (NBoundEvent event) h.

(** Modelled from the spec: the node methods inherited from
    [TmplAstRecursiveVisitor], as above, over the store. *)
Fixpoint visitNode (this : TemplateVisitor) (node : TmplAstNode) (h : Heap)
    {struct node} : Heap :=
  let visitChildren := forEach (visitNode this) in
  match node with
  | NElement _ _ inputs outputs children _
  | NTemplate _ _ inputs outputs children _ _ =>
      visitChildren children
        (forEach (visitBoundEvent this) outputs
           (forEach (visitBoundAttribute this) inputs h))
  | NContent _ _ children => visitChildren children h
  | NBoundAttribute attribute => visitBoundAttribute this attribute h
  | NBoundEvent event => visitBoundEvent this event h
  | NText _ | NBoundText _ | NTextAttribute _ | NVariable _
  | NReference _ | NLetDeclaration _ => h
  end.

(** [TemplateSemanticsVisitor.visit]: the result is the address of the
    array that the call created. *)
Definition TemplateSemanticsVisitor_visit (nodes : list TmplAstNode)
    (clazz : ClassDeclaration) (checker : TemplateTypeChecker Symbol)
    (h : Heap) : ref * Heap :=
  let (array, h) := alloc h in
  let expression :=
    {| templateTypeChecker := checker;
       component := clazz;
       diagnostics := array |} in
  let deprecated :=
    {| templateTypeChecker := checker;
       component := clazz;
       diagnostics := array |} in
  let templateVisitor :=
    {| expressionVisitor := expression; deprecatedVisitor := deprecated |} in
  let h := forEach (visitNode templateVisitor) nodes h in
  (array, h).

(** [TemplateSemanticsCheckerImpl.getDiagnosticsForComponent]; the
    object has the one field [templateTypeChecker], and the [[]] of the
    [null] branch is a new array as well. *)
Definition getDiagnosticsForComponent (checker : TemplateTypeChecker Symbol)
    (clazz : ClassDeclaration) (h : Heap) : ref * Heap :=
  match getTemplate checker clazz with
  | Some template => TemplateSemanticsVisitor_visit template clazz checker h
  | None => alloc h
  end.

(** Two calls in a row on the same checker object and the same class:
    the second call starts in the store that the first call left. *)
Definition twice (checker : TemplateTypeChecker Symbol)
    (clazz : ClassDeclaration) (h : Heap) : (ref * ref) * (Heap * Heap) :=
  let (first, h1) := getDiagnosticsForComponent checker clazz h in
  let (second, h2) := getDiagnosticsForComponent checker clazz h1 in
  ((first, second), (h1, h2)).

End Checker.

End Store.

(** ** More bindings and services *)

Module Fixture2.

Import Fixture.

(** [(click)="count = 0; log(item = 1)"]: a chain of two statements,
    the second write inside the arguments of a call. *)
Definition click_chain : TmplAstBoundEvent.t :=
  event "click" Regular
    (ASTWithSource 499
       (Chain 500
          [ PropertyWrite 501 (ImplicitReceiver 502) "count"
              (LiteralPrimitive 503 "0");
            Call 504 (bare 505 "log")
              [ PropertyWrite 507 (ImplicitReceiver 508) "item"
                  (LiteralPrimitive 509 "1") ] ])
       (Some "count = 0; log(item = 1)"))
    510 534.

(** A two-way binding to [item] whose handler is wrapped twice. *)
Definition model_wrapped : TmplAstBoundEvent.t :=
  event "ngModelChange" TwoWay
    (ASTWithSource 600 (ASTWithSource 601 (bare 602 "item") None)
       (Some "item"))
    610 614.

Definition template : list TmplAstNode :=
  [ NTemplate (Some "ng-template") [] [title_attr] [click_chain]
      [ NElement "input" [] [] [model_wrapped; model_item] [NText "ok"] [] ]
      [] [item; count] ].

(** A template without a bound event. *)
Definition quiet_template : list TmplAstNode :=
  [ NLetDeclaration sum;
    NElement "p" [] [title_attr] [] [NBoundText (bare 700 "item")] [] ].

(** A service that resolves no expression. *)
Definition silent : TemplateTypeChecker bool :=
  {| getTemplate := getTemplate checker;
     getExpressionTarget := fun _ _ => None;
     getSymbolOfNode := getSymbolOfNode checker |}.

(** Every symbol is a signal reference. *)
Definition allSignals (symbol : bool) : bool := true.

End Fixture2.

(** ** What the checker reports *)

Definition isPropertyWrite (a : AST) : bool :=
  match a with PropertyWrite _ _ _ _ => true | _ => false end.

(** The two classes of node whose visit method an expression visitor of
    the checker overrides. *)
Definition isReadOrWrite (a : AST) : bool :=
  isPropertyRead a || isPropertyWrite a.

Section Reports.

Context {Symbol : Type}.
Variable isSignalReference : Symbol -> bool.
Variable ngErrorCode : ErrorCode -> Z.
Variable templateTypeChecker : TemplateTypeChecker Symbol.
Variable component : ClassDeclaration.

(** The message that the [if (isVariable) ... else ...] of
    [checkForIllegalWriteInTwoWayBinding] picks for a target. *)
Definition twoWayMessage (target : VarOrLet) : string :=
  match target with
  | inl v => twoWayVariableMessage (TmplAstVariable.name v)
  | inr l => twoWayLetMessage (TmplAstLetDeclaration.name l)
  end.

(** A node for which Rule A pushes in the context of a bound event: a
    property write on the implicit receiver that the service resolves
    to a variable. *)
Definition reportedWrite (a : AST) : bool :=
  isPropertyWrite a
  && instanceofImplicitReceiver (receiver_of a)
  && match getExpressionTarget templateTypeChecker a component with
     | Some (EVariable _) => true
     | _ => false
     end.

(** The diagnostics that the two checks give rise to on a template,
    told from the template alone: one for every write on the implicit
    receiver, anywhere in the handler of a bound event, that resolves to
    a variable; one for every two-way bound event whose handler, one
    source wrapper stripped, is a bare name that resolves to a variable
    or a [@let] declaration whose symbol is no signal. *)
Inductive Reported (nodes : list TmplAstNode) : TemplateDiagnostic -> Prop :=
| Reported_write (event : TmplAstBoundEvent.t) (o : oid) (receiver : AST)
    (name : string) (value : AST) (v : TmplAstVariable.t) :
    In event (flat_map boundEvents nodes) ->
    In (PropertyWrite o receiver name value)
       (subterms (TmplAstBoundEvent.handler event)) ->
    instanceofImplicitReceiver (Some receiver) = true ->
    getExpressionTarget templateTypeChecker
      (PropertyWrite o receiver name value) component = Some (EVariable v) ->
    Reported nodes
      (makeIllegalTemplateVarDiagnostic ngErrorCode component (inl v) event
         (assignmentMessage (TmplAstVariable.name v)))
| Reported_two_way (event : TmplAstBoundEvent.t) (o : oid) (receiver : AST)
    (name : string) (target : VarOrLet) (symbol : Symbol) :
    In event (flat_map boundEvents nodes) ->
    TmplAstBoundEvent.type event = TwoWay ->
    unwrapAstWithSource (TmplAstBoundEvent.handler event)
      = PropertyRead o receiver name ->
    instanceofImplicitReceiver (Some receiver) = true ->
    asVarOrLet
      (getExpressionTarget templateTypeChecker (PropertyRead o receiver name)
         component) = Some target ->
    getSymbolOfNode templateTypeChecker (entity_of target) component
      = Some symbol ->
    isSignalReference symbol = false ->
    Reported nodes
      (makeIllegalTemplateVarDiagnostic ngErrorCode component target event
         (twoWayMessage target)).

End Reports.

(** * Properties *)

(** ** Loops over a list *)

Lemma list_all_Forall {A : Type} (P : A -> Prop) (l : list A) :
  list_all A P l -> Forall P l.
Proof. induction 1; constructor; assumption. Qed.

Section ForEach.

Context {A : Type}.
Implicit Types (f g : A -> Diagnostics -> Diagnostics) (l : list A).

Lemma forEach_cons f x l d : forEach f (x :: l) d = forEach f l (f x d).
Proof. reflexivity. Qed.

Lemma forEach_app f l1 l2 d :
  forEach f (l1 ++ l2)%list d = forEach f l2 (forEach f l1 d).
Proof. unfold forEach. apply fold_left_app. Qed.

Lemma forEach_ext_in f g l :
  (forall x, In x l -> forall d, f x d = g x d) ->
  forall d, forEach f l d = forEach g l d.
Proof.
  induction l as [|x l IH]; intros H d; [reflexivity|].
  rewrite !forEach_cons, (H x (or_introl eq_refl)).
  apply IH. intros y Hy. apply H. now right.
Qed.

Lemma forEach_id f l :
  (forall x, In x l -> forall d, f x d = d) -> forall d, forEach f l d = d.
Proof.
  induction l as [|x l IH]; intros H d; [reflexivity|].
  rewrite forEach_cons, (H x (or_introl eq_refl)).
  apply IH. intros y Hy. apply H. now right.
Qed.

Lemma forEach_append_only f l :
  (forall x, In x l -> append_only (f x)) -> append_only (forEach f l).
Proof.
  induction l as [|x l IH]; intros H d.
  - cbn. now rewrite app_nil_r.
  - rewrite !forEach_cons.
    assert (Hl : append_only (forEach f l))
      by (apply IH; intros y Hy; apply H; now right).
    rewrite (Hl (f x d)), (Hl (f x [])), (H x (or_introl eq_refl) d).
    now rewrite app_assoc.
Qed.

Lemma forEach_concat f l :
  (forall x, In x l -> append_only (f x)) ->
  forEach f l [] = List.concat (map (fun x => f x []) l).
Proof.
  induction l as [|x l IH]; intros H; [reflexivity|].
  rewrite forEach_cons. cbn [map List.concat].
  rewrite (forEach_append_only f l) by (intros y Hy; apply H; now right).
  f_equal. apply IH. intros y Hy. apply H. now right.
Qed.

Lemma forEach_Forall (P : TemplateDiagnostic -> Prop) f l :
  (forall x, In x l -> forall d, Forall P d -> Forall P (f x d)) ->
  forall d, Forall P d -> Forall P (forEach f l d).
Proof.
  induction l as [|x l IH]; intros H d Hd; [exact Hd|].
  rewrite forEach_cons. apply IH.
  - intros y Hy. apply H. now right.
  - apply H; [now left | exact Hd].
Qed.

End ForEach.

Lemma forEach_flat_map {A B : Type} (f : B -> Diagnostics -> Diagnostics)
    (g : A -> list B) (l : list A) (d : Diagnostics) :
  forEach f (flat_map g l) d = forEach (fun x => forEach f (g x)) l d.
Proof.
  revert d. induction l as [|x l IH]; intros d; [reflexivity|].
  cbn [flat_map]. rewrite forEach_app, forEach_cons. apply IH.
Qed.

(** ** The expression traversal is a loop over its visit order *)

Section Traversal.

Variables hr hw : AST -> TmplAstNode -> Diagnostics -> Diagnostics.
Variable b : bool.
Variable context : TmplAstNode.

Lemma visit_forEach (t : AST) (d : Diagnostics) :
  visit hr hw b t context d
  = forEach (fun a => dispatch hr hw a context) (visitOrder b t) d.
Proof.
  revert d.
  induction t as
    [ o | o | o | o v | o r IHr n | o r IHr n v IHv | o r IHr n
    | o r IHr k IHk | o r IHr k IHk v IHv | o op l IHl r IHr | o e IHe
    | o c IHc t1 IH1 t2 IH2 | o es IHes | o r IHr args IHargs
    | o e IHe n args IHargs | o es IHes | o a IHa s ];
    intros d; cbn [visit visitOrder];
    rewrite ?forEach_app, ?forEach_cons;
    try (apply list_all_Forall in IHes; rewrite Forall_forall in IHes);
    try (apply list_all_Forall in IHargs; rewrite Forall_forall in IHargs);
    rewrite <- ?IHr, <- ?IHv, <- ?IHk, <- ?IHl, <- ?IHe, <- ?IHc,
            <- ?IH1, <- ?IH2, <- ?IHa;
    try reflexivity;
    destruct b; try reflexivity;
    rewrite forEach_flat_map; apply forEach_ext_in; auto.
Qed.

End Traversal.

Lemma visitOrder_subterms (b : bool) (t a : AST) :
  In a (visitOrder b t) -> In a (subterms t).
Proof.
  unfold subterms. revert a.
  induction t as
    [ o | o | o | o v | o r IHr n | o r IHr n v IHv | o r IHr n
    | o r IHr k IHk | o r IHr k IHk v IHv | o op l IHl r IHr | o e IHe
    | o c IHc t1 IH1 t2 IH2 | o es IHes | o r IHr args IHargs
    | o e IHe n args IHargs | o es IHes | o a IHa s ];
    intros x; cbn [visitOrder descendants];
    try (apply list_all_Forall in IHes; rewrite Forall_forall in IHes);
    try (apply list_all_Forall in IHargs; rewrite Forall_forall in IHargs);
    rewrite ?in_app_iff; cbn [In]; rewrite ?in_app_iff; cbn [In];
    try (destruct b; cbn [In]); rewrite ?in_flat_map;
    intros H;
    repeat match goal with
           | H : _ \/ _ |- _ => destruct H as [H|H]
           | H : False |- _ => destruct H
           | H : exists _, _ |- _ => destruct H as [? [? H]]
           end;
    try (now left);
    right;
    repeat match goal with
           | IH : forall a, In a (visitOrder _ ?c) -> _,
             H : In _ (visitOrder _ ?c) |- _ => apply IH in H; destruct H as [H|H]
           | IH : forall x, In x ?l -> forall a, In a (visitOrder _ x) -> _,
             H0 : In ?y ?l, H : In _ (visitOrder _ ?y) |- _ =>
               apply (IH _ H0) in H; destruct H as [H|H]
           end;
    rewrite ?in_app_iff; cbn [In]; rewrite ?in_flat_map;
    try solve [ intuition eauto
              | right; eexists; split; [eassumption|]; cbn [In]; auto
              | eexists; split; [eassumption|]; cbn [In]; auto ].
Qed.

(** ** The two rules and the walk over a template *)

Section Rules.

Context {Symbol : Type}.
Variable isSignalReference : Symbol -> bool.
Variable ngErrorCode : ErrorCode -> Z.
Variable ttc : TemplateTypeChecker Symbol.
Variable component : ClassDeclaration.

Local Notation checkA :=
  (checkForIllegalWriteInEventBinding ngErrorCode ttc component).
Local Notation checkB :=
  (checkForIllegalWriteInTwoWayBinding isSignalReference ngErrorCode ttc
     component).
Local Notation mkDiag :=
  (makeIllegalTemplateVarDiagnostic ngErrorCode component).
Local Notation exprVisit :=
  (ExpressionsSemanticsVisitor_visit isSignalReference ngErrorCode ttc
     component).
Local Notation onEvent :=
  (visitBoundEvent isSignalReference ngErrorCode ttc component).
Local Notation onNode :=
  (visitNode isSignalReference ngErrorCode ttc component).
Local Notation ruleA_only := (ruleA_visit ngErrorCode ttc component).
Local Notation FromRule := (RuleDiagnostic ngErrorCode component).

Lemma append_only_id : append_only (fun d => d).
Proof. intros d. now rewrite app_nil_r. Qed.

Lemma append_only_push (x : TemplateDiagnostic) :
  append_only (fun d => push d x).
Proof. intros d. reflexivity. Qed.

Lemma checkA_append_only (a : AST) (c : TmplAstNode) :
  append_only (checkA a c).
Proof.
  unfold checkForIllegalWriteInEventBinding.
  destruct c; try apply append_only_id.
  destruct (negb _); [apply append_only_id|].
  destruct (getExpressionTarget _ _ _) as [[r|v|l]|];
    try apply append_only_id.
  apply append_only_push.
Qed.

Lemma checkB_append_only (a : AST) (c : TmplAstNode) :
  append_only (checkB a c).
Proof.
  unfold checkForIllegalWriteInTwoWayBinding.
  destruct c; try apply append_only_id.
  destruct (TmplAstBoundEvent.type _); try apply append_only_id.
  destruct (_ || _); [apply append_only_id|].
  destruct (asVarOrLet _) as [target|]; [|apply append_only_id].
  destruct (getSymbolOfNode _ _ _) as [symbol|]; [|apply append_only_id].
  destruct (negb _); [|apply append_only_id].
  apply append_only_push.
Qed.

Lemma checkA_FromRule (a : AST) (c : TmplAstNode) (d : Diagnostics) :
  Forall FromRule d -> Forall FromRule (checkA a c d).
Proof.
  intros Hd. unfold checkForIllegalWriteInEventBinding.
  destruct c; try exact Hd.
  destruct (negb _); [exact Hd|].
  destruct (getExpressionTarget _ _ _) as [[r|v|l]|]; try exact Hd.
  apply Forall_app. split; [exact Hd|].
  apply Forall_cons; [apply RuleA_variable | apply Forall_nil].
Qed.

Lemma checkB_FromRule (a : AST) (c : TmplAstNode) (d : Diagnostics) :
  Forall FromRule d -> Forall FromRule (checkB a c d).
Proof.
  intros Hd. unfold checkForIllegalWriteInTwoWayBinding.
  destruct c as [| | | | | | |event| | |]; try exact Hd.
  destruct (TmplAstBoundEvent.type event) eqn:Hty; try exact Hd.
  destruct (_ || _); [exact Hd|].
  destruct (asVarOrLet _) as [[v|l]|]; [| |exact Hd];
    (destruct (getSymbolOfNode _ _ _) as [symbol|]; [|exact Hd]);
    (destruct (negb _); [|exact Hd]);
    (apply Forall_app; split; [exact Hd|]);
    (apply Forall_cons; [|apply Forall_nil]);
    [now apply RuleB_variable | now apply RuleB_let].
Qed.

(** The deprecated-usages visitor leaves the array as it found it. *)
Lemma DeprecatedSemanticsVisitor_visit_id (a : AST) (c : TmplAstNode)
    (d : Diagnostics) :
  DeprecatedSemanticsVisitor_visit a c d = d.
Proof.
  unfold DeprecatedSemanticsVisitor_visit. rewrite visit_forEach.
  apply forEach_id. intros x _ d'. now destruct x.
Qed.

Lemma visitBoundAttribute_id (a : TmplAstBoundAttribute.t) (d : Diagnostics) :
  visitBoundAttribute a d = d.
Proof. apply DeprecatedSemanticsVisitor_visit_id. Qed.

Lemma visitBoundEvent_exprVisit (e : TmplAstBoundEvent.t) (d : Diagnostics) :
  onEvent e d = exprVisit (TmplAstBoundEvent.handler e) (NBoundEvent e) d.
Proof. apply DeprecatedSemanticsVisitor_visit_id. Qed.

Lemma dispatch_append_only (x : AST) (c : TmplAstNode) :
  append_only (dispatch checkB checkA x c).
Proof.
  intros d. destruct x; cbn [dispatch];
    first [ apply checkA_append_only | apply checkB_append_only
          | now rewrite app_nil_r ].
Qed.

Lemma exprVisit_append_only (a : AST) (c : TmplAstNode) :
  append_only (exprVisit a c).
Proof.
  intros d. unfold ExpressionsSemanticsVisitor_visit.
  rewrite !visit_forEach.
  apply (forEach_append_only (fun x => dispatch checkB checkA x c)).
  intros x _. apply dispatch_append_only.
Qed.

Lemma exprVisit_FromRule (a : AST) (c : TmplAstNode) (d : Diagnostics) :
  Forall FromRule d -> Forall FromRule (exprVisit a c d).
Proof.
  unfold ExpressionsSemanticsVisitor_visit. rewrite visit_forEach.
  apply forEach_Forall. intros x _ d' Hd'.
  destruct x; cbn [dispatch];
    auto using checkA_FromRule, checkB_FromRule.
Qed.

Lemma visitBoundEvent_append_only (e : TmplAstBoundEvent.t) :
  append_only (onEvent e).
Proof.
  intros d. rewrite !visitBoundEvent_exprVisit.
  apply exprVisit_append_only.
Qed.

Lemma visitBoundEvent_FromRule (e : TmplAstBoundEvent.t) (d : Diagnostics) :
  Forall FromRule d -> Forall FromRule (onEvent e d).
Proof.
  rewrite visitBoundEvent_exprVisit. apply exprVisit_FromRule.
Qed.

(** The walk over a node is the loop over its bound events. *)
Lemma visitNode_forEach (n : TmplAstNode) (d : Diagnostics) :
  onNode n d = forEach onEvent (boundEvents n) d.
Proof.
  revert d.
  induction n as
    [ nm attrs ins outs ch IH refs | tg attrs ins outs ch IH refs vars
    | sel attrs ch IH | | | | | | | | ];
    intros d; cbn [visitNode boundEvents]; try reflexivity;
    try apply visitBoundAttribute_id;
    apply list_all_Forall in IH; rewrite Forall_forall in IH;
    rewrite ?forEach_app, forEach_flat_map,
      ?(forEach_id visitBoundAttribute ins
          (fun x _ => visitBoundAttribute_id x));
    apply forEach_ext_in; auto.
Qed.

Lemma visitNode_append_only (n : TmplAstNode) : append_only (onNode n).
Proof.
  intros d. rewrite !visitNode_forEach.
  apply (forEach_append_only onEvent).
  intros e _. apply visitBoundEvent_append_only.
Qed.

Lemma visitNode_FromRule (n : TmplAstNode) (d : Diagnostics) :
  Forall FromRule d -> Forall FromRule (onNode n d).
Proof.
  rewrite visitNode_forEach. apply forEach_Forall.
  intros e _. apply visitBoundEvent_FromRule.
Qed.

(** *** Objects and positions *)

Lemma nodupb_head_fresh (x y : nat) (l : list nat) :
  nodupb (x :: l) = true -> In y l -> Nat.eqb y x = false.
Proof.
  cbn [nodupb]. intros H Hy.
  apply andb_prop in H. destruct H as [H _].
  apply negb_true_iff in H.
  destruct (Nat.eqb y x) eqn:E; [|reflexivity].
  apply Nat.eqb_eq in E. subst y.
  assert (Hex : existsb (Nat.eqb x) l = true).
  { apply existsb_exists. exists x. split; [exact Hy | apply Nat.eqb_refl]. }
  congruence.
Qed.

Lemma nodupb_tail (x : nat) (l : list nat) :
  nodupb (x :: l) = true -> nodupb l = true.
Proof. cbn [nodupb]. intros H. now apply andb_prop in H. Qed.

Lemma distinct_objects_inner (o : oid) (inner : AST) (s : option string) :
  distinct_objects (ASTWithSource o inner s) = true ->
  distinct_objects inner = true.
Proof.
  unfold distinct_objects, subterms. cbn [descendants map].
  apply nodupb_tail.
Qed.

Lemma below_not_same_object (t x : AST) :
  distinct_objects t = true -> In x (descendants t) ->
  same_object x t = false.
Proof.
  unfold distinct_objects, subterms, same_object. cbn [map].
  intros H Hx. eapply nodupb_head_fresh; [exact H|].
  now apply in_map.
Qed.

(** A node strictly below the unwrapped root of a handler is another
    object than that root. *)
Lemma nested_not_root (h x : AST) :
  distinct_objects h = true ->
  In x (descendants (unwrapAstWithSource h)) ->
  same_object x (unwrapAstWithSource h) = false.
Proof.
  intros H Hx. apply below_not_same_object; [|exact Hx].
  destruct h; cbn [unwrapAstWithSource]; try exact H.
  eapply distinct_objects_inner; exact H.
Qed.

(** Where a node of a handler sits: it is the handler, the unwrapped
    root, or strictly below that root. *)
Lemma handler_positions (h x : AST) :
  In x (subterms h) ->
  x = h \/ x = unwrapAstWithSource h
  \/ In x (descendants (unwrapAstWithSource h)).
Proof.
  intros [<-|Hin]; [now left|].
  destruct h; cbn [unwrapAstWithSource]; auto.
  cbn [descendants] in Hin. destruct Hin as [<-|Hin]; auto.
Qed.

Lemma checkB_not_root (x : AST) (event : TmplAstBoundEvent.t)
    (d : Diagnostics) :
  same_object x (unwrapAstWithSource (TmplAstBoundEvent.handler event)) = false ->
  checkB x (NBoundEvent event) d = d.
Proof.
  intros H. unfold checkForIllegalWriteInTwoWayBinding.
  rewrite H. cbn [negb]. rewrite orb_true_r.
  now destruct (TmplAstBoundEvent.type event).
Qed.

Lemma checkB_not_implicit (x : AST) (c : TmplAstNode) (d : Diagnostics) :
  instanceofImplicitReceiver (receiver_of x) = false ->
  checkB x c d = d.
Proof.
  intros H. unfold checkForIllegalWriteInTwoWayBinding. rewrite H.
  destruct c; try reflexivity.
  now destruct (TmplAstBoundEvent.type _).
Qed.

(** *** Rule A *)


Lemma exprVisit_read_implicit (o : oid) (receiver : AST) (name : string)
    (c : TmplAstNode) (d : Diagnostics) :
  instanceofImplicitReceiver (Some receiver) = true ->
  exprVisit (PropertyRead o receiver name) c d
  = checkB (PropertyRead o receiver name) c d.
Proof.
  intros H. unfold ExpressionsSemanticsVisitor_visit. cbn [visit].
  now destruct receiver.
Qed.


(** *** Rule B *)

(** C2 - the trigger of Rule B.  The check of a property read changes
    the array only when the context is a bound event of the two-way
    kind, the receiver is an implicit receiver and the read is the
    very object at the root of the handler, one source wrapper
    stripped.  A read strictly below that root is never reported; when
    the root is no bare name, the whole visit of the handler reports
    what Rule A alone reports; and another object with the fields of
    the root is not reported either. *)
Theorem C2_rule_B_trigger :
  (forall (ast : AST) (context : TmplAstNode) (d : Diagnostics),
      checkB ast context d <> d ->
      exists event,
        context = NBoundEvent event
        /\ TmplAstBoundEvent.type event = TwoWay
        /\ instanceofImplicitReceiver (receiver_of ast) = true
        /\ oid_of ast
           = oid_of (unwrapAstWithSource (TmplAstBoundEvent.handler event)))
  /\ (forall (event : TmplAstBoundEvent.t) (read : AST) (d : Diagnostics),
        distinct_objects (TmplAstBoundEvent.handler event) = true ->
        In read (descendants
                   (unwrapAstWithSource (TmplAstBoundEvent.handler event))) ->
        checkB read (NBoundEvent event) d = d)
  /\ (forall (event : TmplAstBoundEvent.t) (d : Diagnostics),
        distinct_objects (TmplAstBoundEvent.handler event) = true ->
        isBareRead
          (unwrapAstWithSource (TmplAstBoundEvent.handler event)) = false ->
        exprVisit (TmplAstBoundEvent.handler event) (NBoundEvent event) d
        = ruleA_only (TmplAstBoundEvent.handler event) (NBoundEvent event) d)
  /\ (forall (event : TmplAstBoundEvent.t) (o o' : oid) (receiver : AST)
         (name : string) (d : Diagnostics),
        unwrapAstWithSource (TmplAstBoundEvent.handler event)
          = PropertyRead o receiver name ->
        o' <> o ->
        checkB (PropertyRead o' receiver name) (NBoundEvent event) d = d).
Proof.
  split; [|split; [|split]].
  - intros ast context d Hne.
    unfold checkForIllegalWriteInTwoWayBinding in Hne.
    destruct context as [| | | | | | |event| | |]; try congruence.
    exists event.
    destruct (TmplAstBoundEvent.type event); try congruence.
    destruct (instanceofImplicitReceiver (receiver_of ast));
      cbn in Hne; try congruence.
    unfold same_object in Hne.
    destruct (Nat.eqb _ _) eqn:E; cbn in Hne; try congruence.
    apply Nat.eqb_eq in E. auto.
  - intros event read d Hd Hin.
    apply checkB_not_root. now apply nested_not_root.
  - intros event d Hd Hroot.
    unfold ExpressionsSemanticsVisitor_visit, ruleA_visit.
    rewrite !visit_forEach. apply forEach_ext_in.
    intros x Hx d'.
    apply visitOrder_subterms, handler_positions in Hx.
    destruct x as [| | | |ox rx nx| | | | | | | | | | | |];
      cbn [dispatch]; try reflexivity.
    destruct Hx as [Hx|[Hx|Hx]].
    + apply checkB_not_implicit. rewrite <- Hx in Hroot. exact Hroot.
    + apply checkB_not_implicit. rewrite <- Hx in Hroot. exact Hroot.
    + apply checkB_not_root. now apply nested_not_root.
  - intros event o o' receiver name d Hroot Hne.
    apply checkB_not_root. rewrite Hroot.
    unfold same_object. cbn [oid_of]. now apply Nat.eqb_neq.
Qed.


(** *** The facade *)

Local Notation facade :=
  (getDiagnosticsForComponent isSignalReference ngErrorCode ttc component).

Lemma TemplateSemanticsVisitor_visit_concat (nodes : list TmplAstNode) :
  TemplateSemanticsVisitor_visit isSignalReference ngErrorCode ttc component
    nodes
  = List.concat (map (fun n => onNode n []) nodes).
Proof.
  unfold TemplateSemanticsVisitor_visit.
  apply (forEach_concat onNode). intros n _. apply visitNode_append_only.
Qed.

Lemma facade_FromRule : Forall FromRule facade.
Proof.
  unfold getDiagnosticsForComponent.
  destruct (getTemplate ttc component) as [nodes|]; [|constructor].
  unfold TemplateSemanticsVisitor_visit.
  apply forEach_Forall; [|constructor].
  intros n _. apply visitNode_FromRule.
Qed.

Lemma FromRule_made (d : TemplateDiagnostic) :
  FromRule d -> exists target event msg, d = mkDiag target event msg.
Proof. intros [v e|v e _|l e _]; eauto. Qed.

(** C4, amended - the shape of a diagnostic.  Every diagnostic that
    [makeIllegalTemplateVarDiagnostic] builds, and so every diagnostic
    of the facade, has the category [Error], the code of
    [WRITE_TO_READ_ONLY_VARIABLE], the message it was given, the
    handler span of the bound event as its span, and one annotation,
    with the text ['<name>' is declared here.]; the annotation spans
    the value span of a variable when the variable has one and its
    source span otherwise, and always the source span of a [@let]
    declaration. *)
Theorem C4_diagnostic_shape :
  (forall (target : VarOrLet) (event : TmplAstBoundEvent.t) (msg : string),
      let d := mkDiag target event msg in
      category d = Error
      /\ code d = ngErrorCode WRITE_TO_READ_ONLY_VARIABLE
      /\ messageText d = msg
      /\ diag_span d = TmplAstBoundEvent.handlerSpan event
      /\ exists annotation,
          relatedMessages d = [annotation]
          /\ text annotation = "'" ++ target_name target ++ "' is declared here."
          /\ annotation_offsets annotation
             = span_offsets
                 match target with
                 | inl v =>
                     match TmplAstVariable.valueSpan v with
                     | Some s => s
                     | None => TmplAstVariable.sourceSpan v
                     end
                 | inr l => TmplAstLetDeclaration.sourceSpan l
                 end)
  /\ Forall (fun d => exists target event msg, d = mkDiag target event msg)
       facade.
Proof.
  split.
  - intros target event msg d. repeat split.
    eexists. repeat split.
  - eapply Forall_impl; [|exact facade_FromRule].
    intros d. apply FromRule_made.
Qed.

(** C5, amended - the file of the annotation.  The one annotation of
    every diagnostic is anchored to the source file of the component
    class under check, [component.getSourceFile()], whatever template
    file owns the declaration or the bound event. *)
Theorem C5_annotation_file :
  (forall (target : VarOrLet) (event : TmplAstBoundEvent.t) (msg : string),
      map sourceFile (relatedMessages (mkDiag target event msg))
      = [getSourceFile component])
  /\ Forall (fun d => map sourceFile (relatedMessages d)
                      = [getSourceFile component])
       facade.
Proof.
  split; [reflexivity|].
  eapply Forall_impl; [|exact facade_FromRule].
  intros d Hd. apply FromRule_made in Hd.
  destruct Hd as (target & event & msg & ->). reflexivity.
Qed.

(** C6 - the facade.  [getDiagnosticsForComponent] returns the empty
    list when the service has no template for the class; otherwise it
    returns what the walk over the nodes of the template pushes to a
    new array, which is, node after node, what the walk over that node
    pushes to an empty array. *)
Theorem C6_facade :
  facade
  = match getTemplate ttc component with
    | None => []
    | Some nodes => forEach onNode nodes []
    end
  /\ facade
    = match getTemplate ttc component with
      | None => []
      | Some nodes => List.concat (map (fun n => onNode n []) nodes)
      end.
Proof.
  unfold getDiagnosticsForComponent.
  destruct (getTemplate ttc component) as [nodes|]; split; try reflexivity.
  apply TemplateSemanticsVisitor_visit_concat.
Qed.

(** *** Unresolved targets *)

Lemma checkB_no_symbol (o : oid) (receiver : AST) (name : string)
    (event : TmplAstBoundEvent.t) (target : VarOrLet) (d : Diagnostics) :
  asVarOrLet
    (getExpressionTarget ttc (PropertyRead o receiver name) component)
    = Some target ->
  getSymbolOfNode ttc (entity_of target) component = None ->
  checkB (PropertyRead o receiver name) (NBoundEvent event) d = d.
Proof.
  intros Htarget Hsym. unfold checkForIllegalWriteInTwoWayBinding.
  rewrite Htarget, Hsym.
  destruct (TmplAstBoundEvent.type event); try reflexivity.
  now destruct (_ || _).
Qed.

Lemma exprVisit_unwrap_read (h : AST) (o : oid) (receiver : AST)
    (name : string) (c : TmplAstNode) (d : Diagnostics) :
  unwrapAstWithSource h = PropertyRead o receiver name ->
  instanceofImplicitReceiver (Some receiver) = true ->
  exprVisit h c d = checkB (PropertyRead o receiver name) c d.
Proof.
  intros Hroot Hrecv.
  rewrite <- (exprVisit_read_implicit o receiver name c d Hrecv).
  destruct h; cbn [unwrapAstWithSource] in Hroot;
    try discriminate Hroot; rewrite <- Hroot; reflexivity.
Qed.

(** C7 - unresolved targets.  The two checks are total functions of
    the array; a target that resolves to nothing or to a reference
    leaves the array as it is under both rules.  When the root read of
    a handler resolves to a variable or a [@let] declaration for which
    the service has no symbol, the check, and with it the visit of the
    bound event, leaves the array as it is, and the loop over the
    events goes on as if the event were not there. *)
Theorem C7_fail_open :
  (forall (ast : AST) (context : TmplAstNode) (d : Diagnostics),
      match getExpressionTarget ttc ast component with
      | None | Some (EReference _) => True
      | _ => False
      end ->
      checkA ast context d = d /\ checkB ast context d = d)
  /\ (forall (event : TmplAstBoundEvent.t) (o : oid) (receiver : AST)
         (name : string) (target : VarOrLet) (d : Diagnostics)
         (before after : list TmplAstBoundEvent.t),
        unwrapAstWithSource (TmplAstBoundEvent.handler event)
          = PropertyRead o receiver name ->
        instanceofImplicitReceiver (Some receiver) = true ->
        asVarOrLet
          (getExpressionTarget ttc (PropertyRead o receiver name) component)
          = Some target ->
        getSymbolOfNode ttc (entity_of target) component = None ->
        checkB (PropertyRead o receiver name) (NBoundEvent event) d = d
        /\ onEvent event d = d
        /\ forEach onEvent (before ++ event :: after)%list d
           = forEach onEvent (before ++ after)%list d).
Proof.
  split.
  - intros ast context d Htarget.
    unfold checkForIllegalWriteInEventBinding,
      checkForIllegalWriteInTwoWayBinding.
    destruct (getExpressionTarget ttc ast component) as [[r|v|l]|];
      try contradiction; cbn [asVarOrLet];
      (destruct context as [| | | | | | |event| | |]; auto);
      (split; [now destruct (negb _)|]);
      (destruct (TmplAstBoundEvent.type event); auto);
      now destruct (_ || _).
  - intros event o receiver name target d before after
      Hroot Hrecv Htarget Hsym.
    assert (Hcheck : forall d',
               checkB (PropertyRead o receiver name) (NBoundEvent event) d'
               = d')
      by (intros d'; eapply checkB_no_symbol; eassumption).
    assert (Hevent : forall d', onEvent event d' = d').
    { intros d'. rewrite visitBoundEvent_exprVisit.
      rewrite (exprVisit_unwrap_read _ o receiver name) by assumption.
      apply Hcheck. }
    repeat split; auto.
    rewrite !forEach_app, forEach_cons. now rewrite Hevent.
Qed.

(** *** The deprecated-usages visitor *)

(** C10 - the deprecated-usages visitor.  Its [visitAll] does nothing
    and none of its methods pushes: the visit of any expression in any
    context leaves the array as it is, so the visit of a bound
    attribute appends nothing and the visit of a bound event appends
    what the expression visitor appends.  Every diagnostic of the
    facade is one that Rule A or Rule B built. *)
Theorem C10_deprecated_visitor_adds_nothing :
  (forall (asts : list AST) (o : oid) (context : TmplAstNode)
          (d : Diagnostics),
      DeprecatedSemanticsVisitor_visit (Chain o asts) context d = d)
  /\ (forall (ast : AST) (context : TmplAstNode) (d : Diagnostics),
        DeprecatedSemanticsVisitor_visit ast context d = d)
  /\ (forall (attribute : TmplAstBoundAttribute.t) (d : Diagnostics),
        visitBoundAttribute attribute d = d)
  /\ (forall (event : TmplAstBoundEvent.t) (d : Diagnostics),
        onEvent event d
        = exprVisit (TmplAstBoundEvent.handler event) (NBoundEvent event) d)
  /\ Forall FromRule facade.
Proof.
  split; [|split; [|split; [|split]]].
  - intros. apply DeprecatedSemanticsVisitor_visit_id.
  - apply DeprecatedSemanticsVisitor_visit_id.
  - apply visitBoundAttribute_id.
  - apply visitBoundEvent_exprVisit.
  - apply facade_FromRule.
Qed.

End Rules.

(** ** Two runs *)

(** *** The store *)

Lemma modify_id (r : Store.ref) (h : Store.Heap) :
  Store.modify r (fun d => d) h = h.
Proof.
  revert r. induction h as [|d h IH]; intros [|r]; cbn [Store.modify];
    try reflexivity.
  now rewrite IH.
Qed.

Lemma modify_modify (r : Store.ref) (f g : Diagnostics -> Diagnostics)
    (h : Store.Heap) :
  Store.modify r f (Store.modify r g h) = Store.modify r (fun d => f (g d)) h.
Proof.
  revert r. induction h as [|d h IH]; intros [|r]; cbn [Store.modify];
    try reflexivity.
  now rewrite IH.
Qed.

Lemma modify_fresh (h : Store.Heap) (d : Diagnostics)
    (f : Diagnostics -> Diagnostics) :
  Store.modify (List.length h) f (h ++ [d])%list = (h ++ [f d])%list.
Proof.
  induction h as [|d' h IH]; cbn [List.length app Store.modify];
    [reflexivity|].
  now rewrite IH.
Qed.

Lemma read_fresh (h : Store.Heap) (d : Diagnostics) (rest : Store.Heap) :
  Store.read (List.length h) (h ++ d :: rest)%list = Some d.
Proof.
  unfold Store.read. rewrite nth_error_app2 by apply Nat.le_refl.
  now rewrite Nat.sub_diag.
Qed.

Lemma read_old (h rest : Store.Heap) (r : Store.ref) :
  r < List.length h -> Store.read r (h ++ rest)%list = Store.read r h.
Proof. intros H. unfold Store.read. now apply nth_error_app1. Qed.

Lemma Store_forEach_refines {A : Type} (r : Store.ref)
    (fH : A -> Store.Heap -> Store.Heap)
    (f : A -> Diagnostics -> Diagnostics) (l : list A) :
  (forall x, In x l -> forall h, fH x h = Store.modify r (f x) h) ->
  forall h, Store.forEach fH l h = Store.modify r (forEach f l) h.
Proof.
  induction l as [|x l IH]; intros H h.
  - symmetry. exact (modify_id r h).
  - change (Store.forEach fH l (fH x h)
            = Store.modify r (fun d => forEach f l (f x d)) h).
    rewrite (H x (or_introl eq_refl)), IH, modify_modify; [reflexivity|].
    intros y Hy. apply H. now right.
Qed.

(** *** Every write goes to the array of the visitor *)

Section Refinement.

Context {Symbol : Type}.
Variable isSignalReference : Symbol -> bool.
Variable ngErrorCode : ErrorCode -> Z.
Variable ttc : TemplateTypeChecker Symbol.
Variable clazz : ClassDeclaration.
Variable array : Store.ref.

Local Notation this :=
  {| Store.templateTypeChecker := ttc;
     Store.component := clazz;
     Store.diagnostics := array |}.
Local Notation templateVisitor :=
  {| Store.expressionVisitor := this; Store.deprecatedVisitor := this |}.

Lemma Store_checkA_refines (a : AST) (c : TmplAstNode) (h : Store.Heap) :
  Store.checkForIllegalWriteInEventBinding ngErrorCode this a c h
  = Store.modify array
      (checkForIllegalWriteInEventBinding ngErrorCode ttc clazz a c) h.
Proof.
  unfold Store.checkForIllegalWriteInEventBinding,
    checkForIllegalWriteInEventBinding.
  cbn [Store.templateTypeChecker Store.component Store.diagnostics].
  destruct c; try (symmetry; exact (modify_id array h)).
  destruct (negb _); [symmetry; exact (modify_id array h)|].
  destruct (getExpressionTarget ttc a clazz) as [[r|v|l]|];
    try (symmetry; exact (modify_id array h)).
  reflexivity.
Qed.

Lemma Store_checkB_refines (a : AST) (c : TmplAstNode) (h : Store.Heap) :
  Store.checkForIllegalWriteInTwoWayBinding isSignalReference ngErrorCode
    this a c h
  = Store.modify array
      (checkForIllegalWriteInTwoWayBinding isSignalReference ngErrorCode ttc
         clazz a c) h.
Proof.
  unfold Store.checkForIllegalWriteInTwoWayBinding,
    checkForIllegalWriteInTwoWayBinding.
  cbn [Store.templateTypeChecker Store.component Store.diagnostics].
  destruct c; try (symmetry; exact (modify_id array h)).
  destruct (TmplAstBoundEvent.type _);
    try (symmetry; exact (modify_id array h)).
  destruct (_ || _); [symmetry; exact (modify_id array h)|].
  destruct (asVarOrLet _) as [target|];
    [|symmetry; exact (modify_id array h)].
  destruct (getSymbolOfNode _ _ _) as [symbol|];
    [|symmetry; exact (modify_id array h)].
  destruct (negb _); [reflexivity | symmetry; exact (modify_id array h)].
Qed.

Lemma Store_visit_refines
    (hrH hwH : AST -> TmplAstNode -> Store.Heap -> Store.Heap)
    (hr hw : AST -> TmplAstNode -> Diagnostics -> Diagnostics) (b : bool) :
  (forall a c h, hrH a c h = Store.modify array (hr a c) h) ->
  (forall a c h, hwH a c h = Store.modify array (hw a c) h) ->
  forall t c h,
    Store.visit hrH hwH b t c h = Store.modify array (visit hr hw b t c) h.
Proof.
  intros Hr Hw t c.
  induction t as
    [ o | o | o | o v | o r IHr n | o r IHr n v IHv | o r IHr n
    | o r IHr k IHk | o r IHr k IHk v IHv | o op l IHl r IHr | o e IHe
    | o x IHc t1 IH1 t2 IH2 | o es IHes | o r IHr args IHargs
    | o e IHe n args IHargs | o es IHes | o a IHa s ];
    intros h; cbn [Store.visit];
    try (apply list_all_Forall in IHes; rewrite Forall_forall in IHes);
    try (apply list_all_Forall in IHargs; rewrite Forall_forall in IHargs);
    try (destruct b);
    rewrite ?IHr, ?IHv, ?IHk, ?IHl, ?IHe, ?IHc, ?IH1, ?IH2, ?IHa;
    try rewrite (Store_forEach_refines array
                   (fun a => Store.visit hrH hwH false a c)
                   (fun a => visit hr hw false a c)) by assumption;
    rewrite ?Hr, ?Hw, ?modify_modify;
    first [ reflexivity | symmetry; exact (modify_id array h) ].
Qed.

Lemma Store_visitBoundEvent_refines (e : TmplAstBoundEvent.t)
    (h : Store.Heap) :
  Store.visitBoundEvent isSignalReference ngErrorCode templateVisitor e h
  = Store.modify array
      (visitBoundEvent isSignalReference ngErrorCode ttc clazz e) h.
Proof.
  unfold Store.visitBoundEvent, visitBoundEvent,
    Store.DeprecatedSemanticsVisitor_visit, DeprecatedSemanticsVisitor_visit,
    Store.ExpressionsSemanticsVisitor_visit, ExpressionsSemanticsVisitor_visit.
  cbn [Store.expressionVisitor Store.deprecatedVisitor].
  rewrite (Store_visit_refines _ _ (fun _ _ d => d) (fun _ _ d => d) true)
    by (intros; symmetry; apply modify_id).
  rewrite (Store_visit_refines _ _
             (checkForIllegalWriteInTwoWayBinding isSignalReference
                ngErrorCode ttc clazz)
             (checkForIllegalWriteInEventBinding ngErrorCode ttc clazz) false)
    by (intros; first [apply Store_checkB_refines | apply Store_checkA_refines]).
  now rewrite modify_modify.
Qed.

Lemma Store_visitBoundAttribute_refines (a : TmplAstBoundAttribute.t)
    (h : Store.Heap) :
  Store.visitBoundAttribute templateVisitor a h
  = Store.modify array (visitBoundAttribute a) h.
Proof.
  unfold Store.visitBoundAttribute, visitBoundAttribute,
    Store.DeprecatedSemanticsVisitor_visit, DeprecatedSemanticsVisitor_visit.
  apply Store_visit_refines; intros; symmetry; apply modify_id.
Qed.

Lemma Store_visitNode_refines (n : TmplAstNode) (h : Store.Heap) :
  Store.visitNode isSignalReference ngErrorCode templateVisitor n h
  = Store.modify array
      (visitNode isSignalReference ngErrorCode ttc clazz n) h.
Proof.
  revert h.
  induction n as
    [ nm attrs ins outs ch IH refs | tg attrs ins outs ch IH refs vars
    | sel attrs ch IH | | | | | | | | ];
    intros h; cbn [Store.visitNode];
    try (apply list_all_Forall in IH; rewrite Forall_forall in IH);
    try rewrite (Store_forEach_refines array _ visitBoundAttribute ins)
      by (intros; apply Store_visitBoundAttribute_refines);
    try rewrite (Store_forEach_refines array _
                   (visitBoundEvent isSignalReference ngErrorCode ttc clazz)
                   outs)
      by (intros; apply Store_visitBoundEvent_refines);
    try rewrite (Store_forEach_refines array _
                   (visitNode isSignalReference ngErrorCode ttc clazz) ch)
      by assumption;
    rewrite ?modify_modify;
    first [ reflexivity
          | symmetry; exact (modify_id array h)
          | apply Store_visitBoundAttribute_refines
          | apply Store_visitBoundEvent_refines ].
Qed.

End Refinement.

(** A call creates one array, at the first unused address, writes the
    diagnostics of the class to it and to no other array, and returns
    its address. *)
Lemma Store_getDiagnosticsForComponent_spec {Symbol : Type}
    (isSignalReference : Symbol -> bool) (ngErrorCode : ErrorCode -> Z)
    (ttc : TemplateTypeChecker Symbol) (clazz : ClassDeclaration)
    (h : Store.Heap) :
  Store.getDiagnosticsForComponent isSignalReference ngErrorCode ttc clazz h
  = (List.length h,
     (h ++ [getDiagnosticsForComponent isSignalReference ngErrorCode ttc
              clazz])%list).
Proof.
  unfold Store.getDiagnosticsForComponent, getDiagnosticsForComponent.
  destruct (getTemplate ttc clazz) as [nodes|]; [|reflexivity].
  unfold Store.TemplateSemanticsVisitor_visit, TemplateSemanticsVisitor_visit,
    Store.alloc.
  f_equal.
  rewrite (Store_forEach_refines (List.length h) _
             (visitNode isSignalReference ngErrorCode ttc clazz) nodes)
    by (intros; apply Store_visitNode_refines).
  apply modify_fresh.
Qed.

(** C8 - two runs.  Two calls of [getDiagnosticsForComponent] in a row
    for the same class, the second in the store that the first has
    left, whatever arrays that store held before: the second call
    returns another array than the first, changes neither the array of
    the first call nor any earlier array, and its array holds the same
    list as that of the first call, the list of the checker for that
    class: the same length, the same order, the same spans and the same
    messages. *)
Theorem C8_idempotence {Symbol : Type}
    (isSignalReference : Symbol -> bool) (ngErrorCode : ErrorCode -> Z)
    (ttc : TemplateTypeChecker Symbol) (clazz : ClassDeclaration)
    (h : Store.Heap) :
  let '((first, second), (h1, h2)) :=
    Store.twice isSignalReference ngErrorCode ttc clazz h in
  first <> second
  /\ (forall r, r < List.length h -> Store.read r h2 = Store.read r h)
  /\ Store.read first h2 = Store.read first h1
  /\ exists d1 d2,
       Store.read first h1 = Some d1
       /\ Store.read second h2 = Some d2
       /\ d1 = d2
       /\ List.length d1 = List.length d2
       /\ map diag_span d1 = map diag_span d2
       /\ map messageText d1 = map messageText d2
       /\ map relatedMessages d1 = map relatedMessages d2
       /\ d1 = getDiagnosticsForComponent isSignalReference ngErrorCode ttc
                 clazz.
Proof.
  unfold Store.twice.
  rewrite (Store_getDiagnosticsForComponent_spec _ _ _ _ h).
  rewrite (Store_getDiagnosticsForComponent_spec _ _ _ _ (h ++ [_])%list).
  set (result := getDiagnosticsForComponent isSignalReference ngErrorCode ttc
                   clazz).
  rewrite last_length.
  split; [apply Nat.neq_succ_diag_r|].
  split; [intros r Hr; rewrite <- app_assoc; now apply read_old|].
  split.
  { rewrite <- app_assoc. cbn [app]. now rewrite !read_fresh. }
  exists result, result.
  split; [apply read_fresh|].
  split; [|repeat split].
  rewrite <- (last_length h result).
  apply (read_fresh (h ++ [result])%list result []).
Qed.

(** ** The deprecated-usages rule *)

(** C9 - the stub.  In both listings of the class, [checkNode] throws
    an error with the message [not implemented] for every node: it never
    returns, neither [null] nor an empty array nor anything else. *)
Theorem C9_checkNode_not_implemented
    (Node Diagnostic : Type) (node : Node) :
  DeprecatedUsagesRule.checkNode (Diagnostic := Diagnostic) node
  = Throw {| message := "not implemented" |}
  /\ DeprecatedUsagesRule2.checkNode (Diagnostic := Diagnostic) node
     = Throw {| message := "not implemented" |}
  /\ (forall result : CheckNodeResult Diagnostic,
        DeprecatedUsagesRule.checkNode node <> Return result
        /\ DeprecatedUsagesRule2.checkNode node <> Return result).
Proof.
  repeat split; intros; discriminate.
Qed.

(** ** The checker at work *)

Module Run.

Import Fixture.

Notation checkA :=
  (checkForIllegalWriteInEventBinding ngErrorCode checker AppComponent).
Notation checkB :=
  (checkForIllegalWriteInTwoWayBinding isSignalReference ngErrorCode checker
     AppComponent).
Notation mkDiag :=
  (makeIllegalTemplateVarDiagnostic ngErrorCode AppComponent).
Notation exprVisit :=
  (ExpressionsSemanticsVisitor_visit isSignalReference ngErrorCode checker
     AppComponent).
Notation onEvent :=
  (visitBoundEvent isSignalReference ngErrorCode checker AppComponent).
Notation facade :=
  (getDiagnosticsForComponent isSignalReference ngErrorCode checker).

(** The template of the fixture breaks the rules three times: the
    write to [item], and the two-way bindings to [item] and to
    [sum]. *)
Example facade_AppComponent :
  facade AppComponent
  = [ mkDiag (inl item) click_item (assignmentMessage "item");
      mkDiag (inl item) model_item (twoWayVariableMessage "item");
      mkDiag (inr sum) model_sum (twoWayLetMessage "sum") ].
Proof. reflexivity. Qed.

Example facade_Plain : facade Plain = [].
Proof. reflexivity. Qed.

Example handlers_are_trees :
  forallb (fun e => distinct_objects (TmplAstBoundEvent.handler e))
    (flat_map boundEvents template) = true.
Proof. reflexivity. Qed.


(** C2 at [[(ngModel)]="item"], at the nested read of
    [[(ngModel)]="item.label"] and at [[(ngModel)]="items[item]"]. *)
Lemma C2_witness :
  (exists event,
      NBoundEvent model_item = NBoundEvent event
      /\ TmplAstBoundEvent.type event = TwoWay
      /\ instanceofImplicitReceiver (receiver_of (bare 201 "item")) = true
      /\ oid_of (bare 201 "item")
         = oid_of (unwrapAstWithSource (TmplAstBoundEvent.handler event)))
  /\ checkB (bare 282 "item") (NBoundEvent model_nested) [] = []
  /\ exprVisit (TmplAstBoundEvent.handler model_keyed)
       (NBoundEvent model_keyed) []
     = ruleA_visit ngErrorCode checker AppComponent
         (TmplAstBoundEvent.handler model_keyed) (NBoundEvent model_keyed) []
  /\ checkB (bare 999 "item") (NBoundEvent model_item) [] = [].
Proof.
  pose proof (C2_rule_B_trigger isSignalReference ngErrorCode checker
                AppComponent) as (Ha & Hb & Hc & Hd).
  split; [|split; [|split]].
  - apply (Ha (bare 201 "item") (NBoundEvent model_item) []).
    vm_compute. discriminate.
  - apply Hb; [reflexivity|]. cbn. auto.
  - apply Hc; reflexivity.
  - apply (Hd model_item 201 999 (ImplicitReceiver 202) "item" []);
      [reflexivity|]. discriminate.
Defined.


(** C7 at the unknown name [log] and at [[(ngModel)]="ghost"], between
    two other two-way bindings. *)
Lemma C7_witness :
  (checkA (bare 302 "log") (NBoundEvent click_read) [] = []
   /\ checkB (bare 302 "log") (NBoundEvent click_read) [] = [])
  /\ checkB (bare 261 "ghost") (NBoundEvent model_ghost) [] = []
  /\ onEvent model_ghost [] = []
  /\ forEach onEvent ([model_item] ++ model_ghost :: [model_sum]) []
     = forEach onEvent ([model_item] ++ [model_sum]) [].
Proof.
  pose proof (C7_fail_open isSignalReference ngErrorCode checker
                AppComponent) as (Hnone & Hsym).
  split.
  - apply Hnone. exact I.
  - apply (Hsym model_ghost 261 (ImplicitReceiver 262) "ghost" (inl ghost)
             [] [model_item] [model_sum]); reflexivity.
Defined.

(** C8 at the fixture, in a store that holds an array of an earlier
    call: the two calls return the arrays at the addresses 1 and 2, with
    the same three diagnostics, and the array at the address 0 stays as
    it was. *)
Lemma C8_witness :
  let earlier := [[mkDiag (inl item) click_item (assignmentMessage "item")]] in
  Store.twice isSignalReference ngErrorCode checker AppComponent earlier
  = ((1, 2),
     ((earlier ++ [facade AppComponent])%list,
      (earlier ++ [facade AppComponent] ++ [facade AppComponent])%list))
  /\ (0 < List.length earlier ->
      Store.read 0
        (earlier ++ [facade AppComponent] ++ [facade AppComponent])%list
      = Store.read 0 earlier)
  /\ Store.read 1
       (earlier ++ [facade AppComponent] ++ [facade AppComponent])%list
     = Store.read 1 (earlier ++ [facade AppComponent])%list.
Proof.
  intros earlier.
  pose proof (C8_idempotence isSignalReference ngErrorCode checker
                AppComponent earlier) as H.
  split; [reflexivity|].
  change (Store.twice isSignalReference ngErrorCode checker AppComponent
            earlier)
    with ((1, 2),
          ((earlier ++ [facade AppComponent])%list,
           (earlier ++ [facade AppComponent] ++ [facade AppComponent])%list))
    in H.
  cbv iota beta in H. destruct H as (_ & Hframe & Hkeep & _).
  split; [intros Hlt; exact (Hframe 0 Hlt) | exact Hkeep].
Defined.

(** The claim on the annotation span, as the specification words it,
    fails at the two-way binding to the [@let] declaration [sum]: the
    declaration has a value span, from 81 to 82, and the annotation
    spans the whole declaration, from 70 to 82. *)
Lemma C4_counterexample :
  let d := mkDiag (inr sum) model_sum (twoWayLetMessage "sum") in
  In d (facade AppComponent)
  /\ value_initializer_span (inr sum) = Some (span 81 82)
  /\ map annotation_offsets (relatedMessages d) = [(70, 82)]
  /\ map annotation_offsets (relatedMessages d)
     <> [span_offsets (spec_annotation_span (inr sum))].
Proof.
  cbv zeta. split; [|split; [|split]].
  - rewrite facade_AppComponent. cbn [In]. auto.
  - reflexivity.
  - reflexivity.
  - vm_compute. discriminate.
Qed.

(** The claim on the file of the annotation fails at the write to
    [item]: the variable is declared in [app.component.html], and the
    annotation is anchored to [app.component.ts], the file of the
    class. *)
Lemma C5_counterexample :
  let d := mkDiag (inl item) click_item (assignmentMessage "item") in
  In d (facade AppComponent)
  /\ url (declaration_file (inl item)) = "app.component.html"
  /\ map (fun a => fileName (sourceFile a)) (relatedMessages d)
     = ["app.component.ts"]
  /\ map (fun a => fileName (sourceFile a)) (relatedMessages d)
     <> [url (declaration_file (inl item))].
Proof.
  cbv zeta. split; [|split; [|split]].
  - rewrite facade_AppComponent. cbn [In]. auto.
  - reflexivity.
  - reflexivity.
  - vm_compute. discriminate.
Qed.

End Run.

(** * Further properties of the checker *)

(** ** Membership in the result of a loop *)

Lemma In_forEach {A : Type} (f : A -> Diagnostics -> Diagnostics)
    (l : list A) (d : Diagnostics) (y : TemplateDiagnostic) :
  (forall x, In x l -> append_only (f x)) ->
  In y (forEach f l d) <-> In y d \/ exists x, In x l /\ In y (f x []).
Proof.
  intros H.
  rewrite (forEach_append_only f l H d), (forEach_concat f l H).
  rewrite in_app_iff, in_concat.
  split; (intros [Hd|Hx]; [now left|right]).
  - destruct Hx as (ys & Hys & Hy). apply in_map_iff in Hys.
    destruct Hys as (x & <- & Hx). eauto.
  - destruct Hx as (x & Hx & Hy). exists (f x []). split; [|exact Hy].
    apply in_map_iff. eauto.
Qed.

(** ** Every read and write, once *)

Lemma Permutation_snoc {A : Type} (x : A) (l l' : list A) :
  Permutation l l' -> Permutation (l ++ [x]) (x :: l').
Proof.
  intros H. apply Permutation_sym.
  apply Permutation_trans with (x :: l).
  - apply perm_skip, Permutation_sym, H.
  - apply Permutation_cons_append.
Qed.

Lemma visitOrder_flat_map_permutation (es : list AST) :
  Forall (fun x => Permutation (visitOrder false x)
                     (filter isReadOrWrite (subterms x))) es ->
  Permutation (flat_map (visitOrder false) es)
    (filter isReadOrWrite (flat_map (fun x => x :: descendants x) es)).
Proof.
  induction 1 as [|x l Hx _ IH]; [constructor|].
  cbn [flat_map]. rewrite filter_app.
  apply Permutation_app; assumption.
Qed.

Lemma visitOrder_permutation (t : AST) :
  Permutation (visitOrder false t) (filter isReadOrWrite (subterms t)).
Proof.
  unfold subterms.
  induction t as
    [ o | o | o | o v | o r IHr n | o r IHr n v IHv | o r IHr n
    | o r IHr k IHk | o r IHr k IHk v IHv | o op l IHl r IHr | o e IHe
    | o c IHc t1 IH1 t2 IH2 | o es IHes | o r IHr args IHargs
    | o e IHe n args IHargs | o es IHes | o a IHa s ];
    try (apply list_all_Forall in IHes;
         apply visitOrder_flat_map_permutation in IHes);
    try (apply list_all_Forall in IHargs;
         apply visitOrder_flat_map_permutation in IHargs);
    cbn [visitOrder descendants filter isReadOrWrite isPropertyRead
         isPropertyWrite orb];
    rewrite ?filter_app;
    try assumption;
    try (now constructor);
    try (rewrite ?app_assoc; apply Permutation_snoc);
    repeat apply Permutation_app; assumption.
Qed.

Lemma Permutation_filter_same {A : Type} (p : A -> bool) (l l' : list A) :
  Permutation l l' -> Permutation (filter p l) (filter p l').
Proof.
  induction 1 as [|x l l' _ IH|x y l|l l' l'' _ IH1 _ IH2]; cbn [filter].
  - constructor.
  - destruct (p x); [apply perm_skip|]; exact IH.
  - destruct (p x), (p y); try apply Permutation_refl. apply perm_swap.
  - eapply Permutation_trans; eassumption.
Qed.

(** X1 - the inherited traversal.  Whatever the two overrides do after
    their call to [super], a visitor that inherits [visitAll] runs them
    in one fixed order on the nodes of the tree, and that order holds
    every property read and every property write of the tree exactly
    once, a node after the nodes below it. *)
Theorem traversal_reaches_every_read_and_write_once
    (hr hw : AST -> TmplAstNode -> Diagnostics -> Diagnostics)
    (t : AST) (context : TmplAstNode) (d : Diagnostics) :
  visit hr hw false t context d
  = forEach (fun a => dispatch hr hw a context) (visitOrder false t) d
  /\ Permutation (visitOrder false t) (filter isReadOrWrite (subterms t))
  /\ (forall x, In x (visitOrder false t)
                <-> In x (subterms t) /\ isReadOrWrite x = true)
  /\ (forall o r n, visitOrder false (PropertyRead o r n)
                    = (visitOrder false r ++ [PropertyRead o r n])%list)
  /\ (forall o r n v, visitOrder false (PropertyWrite o r n v)
                      = (visitOrder false r ++ visitOrder false v
                         ++ [PropertyWrite o r n v])%list).
Proof.
  split; [apply visit_forEach|]. split; [apply visitOrder_permutation|].
  split; [|split; reflexivity].
  intros x. rewrite <- filter_In. split; apply Permutation_in.
  - apply visitOrder_permutation.
  - apply Permutation_sym, visitOrder_permutation.
Qed.

Section Reporting.

Context {Symbol : Type}.
Variable isSignalReference : Symbol -> bool.
Variable ngErrorCode : ErrorCode -> Z.
Variable ttc : TemplateTypeChecker Symbol.
Variable component : ClassDeclaration.

Local Notation checkA :=
  (checkForIllegalWriteInEventBinding ngErrorCode ttc component).
Local Notation checkB :=
  (checkForIllegalWriteInTwoWayBinding isSignalReference ngErrorCode ttc
     component).
Local Notation mkDiag :=
  (makeIllegalTemplateVarDiagnostic ngErrorCode component).
Local Notation exprVisit :=
  (ExpressionsSemanticsVisitor_visit isSignalReference ngErrorCode ttc
     component).
Local Notation ruleA_only := (ruleA_visit ngErrorCode ttc component).
Local Notation onEvent :=
  (visitBoundEvent isSignalReference ngErrorCode ttc component).
Local Notation onNode :=
  (visitNode isSignalReference ngErrorCode ttc component).
Local Notation walk :=
  (TemplateSemanticsVisitor_visit isSignalReference ngErrorCode ttc component).
Local Notation events := (flat_map boundEvents).

(** *** The walk, event by event *)

Lemma walk_forEach_events (nodes : list TmplAstNode) (d : Diagnostics) :
  forEach onNode nodes d = forEach onEvent (events nodes) d.
Proof.
  rewrite forEach_flat_map. apply forEach_ext_in.
  intros n _ d'. apply visitNode_forEach.
Qed.

Lemma events_of_bound_events (outs : list TmplAstBoundEvent.t) :
  events (map NBoundEvent outs) = outs.
Proof.
  induction outs as [|e outs IH]; [reflexivity|].
  cbn [map flat_map boundEvents app]. now rewrite IH.
Qed.

(** X2 - the order of the result.  The list that
    [TemplateSemanticsVisitor.visit] returns is the concatenation, over
    the bound events of the template, of what the expression visitor
    reports for the handler of each event from an empty array; the
    events come in the order of the walk, the outputs of an element or
    template before its children.  Bound attributes, texts, variables,
    references and [@let] declarations add nothing: a template without
    a bound event gives the empty list. *)
Theorem walk_is_concat_over_bound_events (nodes : list TmplAstNode) :
  walk nodes
  = List.concat
      (map (fun e => exprVisit (TmplAstBoundEvent.handler e) (NBoundEvent e) [])
         (events nodes))
  /\ (events nodes = [] -> walk nodes = []).
Proof.
  assert (E : walk nodes
              = List.concat (map (fun e => onEvent e []) (events nodes))).
  { unfold TemplateSemanticsVisitor_visit. rewrite walk_forEach_events.
    apply (forEach_concat onEvent).
    intros e _. apply visitBoundEvent_append_only. }
  split.
  - rewrite E. f_equal. apply map_ext. intros e.
    apply visitBoundEvent_exprVisit.
  - intros H. rewrite E, H. reflexivity.
Qed.

(** X3 - the walk only appends.  Started on an array that already holds
    diagnostics, the walk over a list of nodes, like the visit of one
    bound event, returns that array followed by what the same walk
    returns from an empty array: it drops nothing, reorders nothing and
    does not look at what is there. *)
Theorem walk_only_appends (nodes : list TmplAstNode)
    (e : TmplAstBoundEvent.t) (d : Diagnostics) :
  forEach onNode nodes d = (d ++ walk nodes)%list
  /\ onEvent e d = (d ++ onEvent e [])%list.
Proof.
  split.
  - apply (forEach_append_only onNode).
    intros n _. apply visitNode_append_only.
  - apply visitBoundEvent_append_only.
Qed.

Lemma walk_app (l1 l2 : list TmplAstNode) :
  walk (l1 ++ l2) = (walk l1 ++ walk l2)%list.
Proof.
  unfold TemplateSemanticsVisitor_visit. rewrite forEach_app.
  apply (forEach_append_only onNode). intros n _. apply visitNode_append_only.
Qed.

Lemma walk_same_events (l1 l2 : list TmplAstNode) :
  events l1 = events l2 -> walk l1 = walk l2.
Proof.
  intros H. unfold TemplateSemanticsVisitor_visit.
  now rewrite !walk_forEach_events, H.
Qed.

(** X4 - how the walk composes.  The walk over two lists of nodes in a
    row returns the two results in a row.  An element, and a template,
    gives what its outputs give, in order, followed by what its
    children give, whatever its name, attributes, inputs, references
    and variables are; a content node gives what its children give. *)
Theorem walk_composes :
  let run :=
    TemplateSemanticsVisitor_visit isSignalReference ngErrorCode ttc component
  in
  (forall l1 l2, run (l1 ++ l2)%list = (run l1 ++ run l2)%list)
  /\ (forall nm attrs ins outs ch refs,
        run [NElement nm attrs ins outs ch refs]
        = (run (map NBoundEvent outs) ++ run ch)%list)
  /\ (forall tg attrs ins outs ch refs vars,
        run [NTemplate tg attrs ins outs ch refs vars]
        = (run (map NBoundEvent outs) ++ run ch)%list)
  /\ (forall sel attrs ch, run [NContent sel attrs ch] = run ch).
Proof.
  cbv zeta. split; [exact walk_app|].
  split; [|split]; intros; rewrite <- ?walk_app; apply walk_same_events;
    cbn [flat_map boundEvents]; rewrite ?app_nil_r, ?flat_map_app,
      ?events_of_bound_events; reflexivity.
Qed.

(** *** One bound event *)

Lemma exprVisit_without_rule_B (h : AST) (context : TmplAstNode)
    (d : Diagnostics) :
  (forall o r n d',
      In (PropertyRead o r n) (subterms h) ->
      checkB (PropertyRead o r n) context d' = d') ->
  exprVisit h context d = ruleA_only h context d.
Proof.
  intros H. unfold ExpressionsSemanticsVisitor_visit, ruleA_visit.
  rewrite !visit_forEach. apply forEach_ext_in.
  intros x Hx d'. apply visitOrder_subterms in Hx.
  destruct x; cbn [dispatch]; try reflexivity. now apply H.
Qed.

Lemma checkB_not_two_way (x : AST) (e : TmplAstBoundEvent.t)
    (d : Diagnostics) :
  TmplAstBoundEvent.type e <> TwoWay -> checkB x (NBoundEvent e) d = d.
Proof.
  intros H. unfold checkForIllegalWriteInTwoWayBinding.
  destruct (TmplAstBoundEvent.type e); congruence.
Qed.

Lemma bare_read_shape (a : AST) :
  isBareRead a = true ->
  exists o r n, a = PropertyRead o r n
                /\ instanceofImplicitReceiver (Some r) = true.
Proof.
  destruct a; cbn; try discriminate. eauto.
Qed.

Lemma exprVisit_not_bare (h : AST) (e : TmplAstBoundEvent.t)
    (d : Diagnostics) :
  h = TmplAstBoundEvent.handler e ->
  distinct_objects h = true ->
  isBareRead (unwrapAstWithSource h) = false ->
  exprVisit h (NBoundEvent e) d = ruleA_only h (NBoundEvent e) d.
Proof.
  intros Hh Hd Hroot. apply exprVisit_without_rule_B.
  intros o r n d' Hx. apply handler_positions in Hx.
  destruct Hx as [Hx|[Hx|Hx]].
  - apply checkB_not_implicit. rewrite <- Hx in Hroot. exact Hroot.
  - apply checkB_not_implicit. rewrite <- Hx in Hroot. exact Hroot.
  - apply checkB_not_root. rewrite <- Hh. now apply nested_not_root.
Qed.

Lemma onEvent_one_rule (e : TmplAstBoundEvent.t) (d : Diagnostics) :
  distinct_objects (TmplAstBoundEvent.handler e) = true ->
  let root := unwrapAstWithSource (TmplAstBoundEvent.handler e) in
  onEvent e d
  = if isBareRead root then checkB root (NBoundEvent e) d
    else ruleA_only (TmplAstBoundEvent.handler e) (NBoundEvent e) d.
Proof.
  intros Hd root. rewrite visitBoundEvent_exprVisit.
  destruct (isBareRead root) eqn:Hroot.
  - apply bare_read_shape in Hroot. destruct Hroot as (o & r & n & Hr & Hi).
    subst root. rewrite Hr. now apply exprVisit_unwrap_read.
  - now apply exprVisit_not_bare.
Qed.

(** X5 - one bound event, one rule.  For a bound event whose handler is
    a tree of distinct objects, the visit reports through one rule
    only: when the handler, one source wrapper stripped, is a bare name,
    the visit is the check of Rule B on that name and nothing else;
    otherwise Rule B stays silent and the visit is that of Rule A. *)
Theorem bound_event_reports_through_one_rule
    (e : TmplAstBoundEvent.t) (d : Diagnostics) :
  distinct_objects (TmplAstBoundEvent.handler e) = true ->
  let root := unwrapAstWithSource (TmplAstBoundEvent.handler e) in
  onEvent e d
  = if isBareRead root then checkB root (NBoundEvent e) d
    else ruleA_only (TmplAstBoundEvent.handler e) (NBoundEvent e) d.
Proof. exact (onEvent_one_rule e d). Qed.

Lemma ruleA_only_without_writes (h : AST) (context : TmplAstNode)
    (d : Diagnostics) :
  filter isPropertyWrite (subterms h) = [] -> ruleA_only h context d = d.
Proof.
  intros H. unfold ruleA_visit. rewrite visit_forEach.
  apply forEach_id. intros x Hx d'. apply visitOrder_subterms in Hx.
  destruct x as [| | | | |ow rw nw vw| | | | | | | | | | |];
    cbn [dispatch]; try reflexivity.
  assert (Hin : In (PropertyWrite ow rw nw vw)
                   (filter isPropertyWrite (subterms h)))
    by (apply filter_In; auto).
  rewrite H in Hin. destruct Hin.
Qed.

(** X6 - event bindings that are not two-way.  For a bound event of any
    kind but two-way, whatever its handler, Rule B is silent and the
    visit is that of Rule A; when the handler holds no property write,
    the visit leaves the array as it is, however many variables the
    handler reads. *)
Theorem one_way_event_reports_writes_only
    (e : TmplAstBoundEvent.t) (d : Diagnostics) :
  TmplAstBoundEvent.type e <> TwoWay ->
  onEvent e d
  = ruleA_only (TmplAstBoundEvent.handler e) (NBoundEvent e) d
  /\ (filter isPropertyWrite (subterms (TmplAstBoundEvent.handler e)) = [] ->
      onEvent e d = d).
Proof.
  intros Hty.
  assert (E : onEvent e d
              = ruleA_only (TmplAstBoundEvent.handler e) (NBoundEvent e) d).
  { rewrite visitBoundEvent_exprVisit. apply exprVisit_without_rule_B.
    intros o r n d' _. now apply checkB_not_two_way. }
  split; [exact E|].
  intros H. rewrite E. now apply ruleA_only_without_writes.
Qed.

(** *** Counting *)

Lemma filter_filter_weaker {A : Type} (p q : A -> bool) (l : list A) :
  (forall x, q x = true -> p x = true) ->
  filter q (filter p l) = filter q l.
Proof.
  intros H. induction l as [|x l IH]; [reflexivity|]. cbn [filter].
  destruct (p x) eqn:Hp; cbn [filter]; rewrite IH; [reflexivity|].
  destruct (q x) eqn:Hq; [|reflexivity].
  apply H in Hq. congruence.
Qed.

Lemma filter_length_weaker {A : Type} (p q : A -> bool) (l : list A) :
  (forall x, q x = true -> p x = true) ->
  List.length (filter q l) <= List.length (filter p l).
Proof.
  intros H. rewrite <- (filter_filter_weaker p q l H).
  induction (filter p l) as [|x l' IH]; [apply Nat.le_refl|].
  cbn [filter]. destruct (q x); cbn [List.length]; lia.
Qed.

Lemma dispatch_ruleA_length (x : AST) (e : TmplAstBoundEvent.t) :
  List.length (dispatch (fun _ _ d => d) checkA x (NBoundEvent e) [])
  = if reportedWrite ttc component x then 1 else 0.
Proof.
  unfold reportedWrite.
  destruct x; cbn [dispatch isPropertyWrite andb]; try reflexivity.
  unfold checkForIllegalWriteInEventBinding.
  destruct (instanceofImplicitReceiver _); cbn [negb andb]; [|reflexivity].
  now destruct (getExpressionTarget _ _ _) as [[r|v|l]|].
Qed.

Lemma ruleA_only_length_order (l : list AST) (e : TmplAstBoundEvent.t) :
  List.length
    (forEach (fun x => dispatch (fun _ _ d => d) checkA x (NBoundEvent e)) l [])
  = List.length (filter (reportedWrite ttc component) l).
Proof.
  rewrite forEach_concat.
  - induction l as [|x l IH]; [reflexivity|].
    cbn [map List.concat filter]. rewrite length_app, IH, dispatch_ruleA_length.
    now destruct (reportedWrite ttc component x).
  - intros x _ d. destruct x; cbn [dispatch];
      first [apply checkA_append_only | now rewrite app_nil_r].
Qed.

Lemma reportedWrite_isReadOrWrite (x : AST) :
  reportedWrite ttc component x = true -> isReadOrWrite x = true.
Proof.
  unfold reportedWrite, isReadOrWrite.
  destruct (isPropertyWrite x); [now rewrite orb_true_r | discriminate].
Qed.

Lemma reportedWrite_isPropertyWrite (x : AST) :
  reportedWrite ttc component x = true -> isPropertyWrite x = true.
Proof.
  unfold reportedWrite.
  destruct (isPropertyWrite x); [reflexivity | discriminate].
Qed.

Lemma ruleA_only_length (h : AST) (e : TmplAstBoundEvent.t) :
  List.length (ruleA_only h (NBoundEvent e) [])
  = List.length (filter (reportedWrite ttc component) (subterms h)).
Proof.
  unfold ruleA_visit. rewrite visit_forEach, ruleA_only_length_order.
  rewrite <- (filter_filter_weaker isReadOrWrite (reportedWrite ttc component)
                (subterms h) reportedWrite_isReadOrWrite).
  apply Permutation_length, Permutation_filter_same, visitOrder_permutation.
Qed.

(** X7 - the number of Rule A diagnostics.  In the context of a bound
    event, the visit of Rule A over an expression pushes as many
    diagnostics as the expression holds property writes on the implicit
    receiver that resolve to a variable, counted at every depth, also
    inside chains, call arguments, pipe arguments and array
    literals. *)
Theorem rule_A_reports_once_per_write_to_variable
    (h : AST) (e : TmplAstBoundEvent.t) :
  List.length (ruleA_only h (NBoundEvent e) [])
  = List.length (filter (reportedWrite ttc component) (subterms h)).
Proof. exact (ruleA_only_length h e). Qed.

Lemma checkB_length (x : AST) (context : TmplAstNode) :
  List.length (checkB x context []) <= 1.
Proof.
  unfold checkForIllegalWriteInTwoWayBinding.
  destruct context; cbn [List.length]; try lia.
  destruct (TmplAstBoundEvent.type _); cbn [List.length]; try lia.
  destruct (_ || _); cbn [List.length]; try lia.
  destruct (asVarOrLet _); cbn [List.length]; try lia.
  destruct (getSymbolOfNode _ _ _); cbn [List.length]; try lia.
  destruct (negb _); cbn [List.length push app]; lia.
Qed.

(** X8 - a bound on the diagnostics of one event.  A bound event whose
    handler is a tree of distinct objects gives at most one diagnostic
    when the handler is a bare name, and otherwise at most as many as
    the handler holds property writes. *)
Theorem bound_event_diagnostics_bound (e : TmplAstBoundEvent.t) :
  distinct_objects (TmplAstBoundEvent.handler e) = true ->
  List.length (onEvent e [])
  <= if isBareRead (unwrapAstWithSource (TmplAstBoundEvent.handler e))
     then 1
     else List.length
            (filter isPropertyWrite (subterms (TmplAstBoundEvent.handler e))).
Proof.
  intros Hd. rewrite (onEvent_one_rule e [] Hd).
  cbv zeta. destruct (isBareRead _).
  - apply checkB_length.
  - rewrite ruleA_only_length.
    apply filter_length_weaker, reportedWrite_isPropertyWrite.
Qed.

(** *** What is in the result *)

Local Notation Reports :=
  (Reported isSignalReference ngErrorCode ttc component).

Lemma In_walk (nodes : list TmplAstNode) (d : TemplateDiagnostic) :
  In d (walk nodes)
  <-> exists e, In e (events nodes) /\ In d (onEvent e []).
Proof.
  unfold TemplateSemanticsVisitor_visit. rewrite walk_forEach_events.
  rewrite In_forEach by (intros e _; apply visitBoundEvent_append_only).
  split; [intros [[]|H]; exact H | intros H; now right].
Qed.

Lemma In_visitOrder (h x : AST) :
  In x (visitOrder false h) <-> In x (subterms h) /\ isReadOrWrite x = true.
Proof.
  rewrite <- filter_In. split; apply Permutation_in.
  - apply visitOrder_permutation.
  - apply Permutation_sym, visitOrder_permutation.
Qed.

Lemma In_onEvent (e : TmplAstBoundEvent.t) (d : TemplateDiagnostic) :
  In d (onEvent e [])
  <-> exists x,
        In x (subterms (TmplAstBoundEvent.handler e))
        /\ isReadOrWrite x = true
        /\ In d (dispatch checkB checkA x (NBoundEvent e) []).
Proof.
  rewrite visitBoundEvent_exprVisit.
  unfold ExpressionsSemanticsVisitor_visit. rewrite visit_forEach.
  rewrite In_forEach by (intros x _; apply dispatch_append_only).
  split.
  - intros [[]|(x & Hx & Hd)]. apply In_visitOrder in Hx.
    exists x. tauto.
  - intros (x & Hx & Hrw & Hd). right. exists x.
    split; [apply In_visitOrder; tauto | exact Hd].
Qed.

Lemma In_checkA (o : oid) (r : AST) (n : string) (v : AST)
    (e : TmplAstBoundEvent.t) (d : TemplateDiagnostic) :
  In d (checkA (PropertyWrite o r n v) (NBoundEvent e) [])
  <-> instanceofImplicitReceiver (Some r) = true
      /\ exists var,
           getExpressionTarget ttc (PropertyWrite o r n v) component
             = Some (EVariable var)
           /\ d = mkDiag (inl var) e
                    (assignmentMessage (TmplAstVariable.name var)).
Proof.
  unfold checkForIllegalWriteInEventBinding. cbn [receiver_of].
  destruct (instanceofImplicitReceiver (Some r)); cbn [negb].
  - destruct (getExpressionTarget _ _ _) as [[rf|var|l]|];
      cbn [push app In];
      [ split; [intros [] | intros (_ & var' & H & _); discriminate H]
      | split
      | split; [intros [] | intros (_ & var' & H & _); discriminate H]
      | split; [intros [] | intros (_ & var' & H & _); discriminate H] ].
    + intros [<-|[]]. eauto.
    + intros (_ & var' & H & ->). injection H as <-. now left.
  - split; [intros [] | intros (H & _); discriminate H].
Qed.

Lemma In_checkB (o : oid) (r : AST) (n : string)
    (e : TmplAstBoundEvent.t) (d : TemplateDiagnostic) :
  In d (checkB (PropertyRead o r n) (NBoundEvent e) [])
  <-> TmplAstBoundEvent.type e = TwoWay
      /\ instanceofImplicitReceiver (Some r) = true
      /\ same_object (PropertyRead o r n)
           (unwrapAstWithSource (TmplAstBoundEvent.handler e)) = true
      /\ exists target symbol,
           asVarOrLet
             (getExpressionTarget ttc (PropertyRead o r n) component)
             = Some target
           /\ getSymbolOfNode ttc (entity_of target) component = Some symbol
           /\ isSignalReference symbol = false
           /\ d = mkDiag target e (twoWayMessage target).
Proof.
  unfold checkForIllegalWriteInTwoWayBinding. cbn [receiver_of].
  destruct (TmplAstBoundEvent.type e);
    try (split; [intros [] | intros (H & _); discriminate H]).
  destruct (instanceofImplicitReceiver (Some r)); cbn [negb orb];
    [|split; [intros [] | intros (_ & H & _); discriminate H]].
  destruct (same_object _ _); cbn [negb];
    [|split; [intros [] | intros (_ & _ & H & _); discriminate H]].
  destruct (asVarOrLet _) as [target|];
    [|split; [intros []
             | intros (_ & _ & _ & t & s & H & _); discriminate H]].
  destruct (getSymbolOfNode _ _ _) as [symbol|] eqn:Hs;
    [|split; [intros []
             | intros (_ & _ & _ & t & s & H & H' & _);
               injection H as <-; congruence]].
  destruct (isSignalReference symbol) eqn:Hsig; cbn [negb push app In].
  - split; [intros []|].
    intros (_ & _ & _ & t & s & H & H' & H'' & _).
    injection H as <-. congruence.
  - split.
    + intros [<-|[]]. do 3 (split; [reflexivity|]).
      exists target, symbol. do 3 (split; [assumption || reflexivity|]).
      now destruct target.
    + intros (_ & _ & _ & t & s & H & H' & _ & ->).
      injection H as <-. left. now destruct target.
Qed.

Lemma unwrap_in_subterms (h : AST) : In (unwrapAstWithSource h) (subterms h).
Proof. destruct h; cbn; auto. Qed.

Lemma same_object_root (h x : AST) :
  distinct_objects h = true ->
  In x (subterms h) -> isPropertyRead x = true ->
  same_object x (unwrapAstWithSource h) = true ->
  x = unwrapAstWithSource h.
Proof.
  intros Hd Hx Hread Hsame. apply handler_positions in Hx.
  destruct Hx as [->|[->|Hx]]; [|reflexivity|].
  - now destruct h.
  - apply (nested_not_root h x Hd) in Hx. congruence.
Qed.

Lemma walk_sound (nodes : list TmplAstNode) (d : TemplateDiagnostic) :
  forallb (fun e => distinct_objects (TmplAstBoundEvent.handler e))
    (events nodes) = true ->
  In d (walk nodes) -> Reports nodes d.
Proof.
  intros Htrees Hd. apply In_walk in Hd. destruct Hd as (e & He & Hd).
  assert (Htree : distinct_objects (TmplAstBoundEvent.handler e) = true)
    by (rewrite forallb_forall in Htrees; now apply Htrees).
  apply In_onEvent in Hd. destruct Hd as (x & Hx & Hrw & Hd).
  destruct x as [| | | |o r n|o r n v| | | | | | | | | | |];
    try discriminate Hrw; cbn [dispatch] in Hd.
  - apply In_checkB in Hd.
    destruct Hd as (Hty & Hi & Hsame & target & symbol & Ht & Hs & Hsig & ->).
    apply (same_object_root _ _ Htree Hx eq_refl) in Hsame.
    now apply (Reported_two_way _ _ _ _ _ e o r n target symbol).
  - apply In_checkA in Hd. destruct Hd as (Hi & var & Ht & ->).
    now apply (Reported_write _ _ _ _ _ e o r n v var).
Qed.

Lemma walk_complete (nodes : list TmplAstNode) (d : TemplateDiagnostic) :
  Reports nodes d -> In d (walk nodes).
Proof.
  intros [e o r n v var He Hx Hi Ht | e o r n target symbol He Hty Hroot Hi Ht Hs Hsig];
    apply In_walk; exists e; (split; [exact He|]); apply In_onEvent.
  - exists (PropertyWrite o r n v). repeat split; [exact Hx|].
    cbn [dispatch]. apply In_checkA. eauto.
  - exists (PropertyRead o r n). repeat split.
    + rewrite <- Hroot. apply unwrap_in_subterms.
    + cbn [dispatch]. apply In_checkB. repeat split; try assumption.
      * rewrite Hroot. unfold same_object. apply Nat.eqb_refl.
      * exists target, symbol. auto.
Qed.

(** X9 - no diagnostic without a cause.  On a template whose handlers
    are trees of distinct objects, every diagnostic in the result of
    the walk is one of the two kinds that [Reported] tells: a write on
    the implicit receiver, somewhere in the handler of a bound event of
    the template, that resolves to a variable; or a two-way bound event
    of the template whose handler is a bare name that resolves to a
    variable or a [@let] declaration whose symbol is no signal. *)
Theorem walk_reports_nothing_else
    (nodes : list TmplAstNode) (d : TemplateDiagnostic) :
  forallb (fun e => distinct_objects (TmplAstBoundEvent.handler e))
    (events nodes) = true ->
  In d (walk nodes) -> Reports nodes d.
Proof. exact (walk_sound nodes d). Qed.

(** X10 - no cause without a diagnostic.  Every write on the implicit
    receiver that resolves to a variable, at any depth of the handler of
    any bound event of the template, of any kind, and every two-way
    bound event whose handler is a bare name that resolves to a variable
    or a [@let] declaration whose symbol is no signal, has its
    diagnostic in the result of the walk. *)
Theorem walk_reports_every_violation
    (nodes : list TmplAstNode) (d : TemplateDiagnostic) :
  Reports nodes d -> In d (walk nodes).
Proof. exact (walk_complete nodes d). Qed.

(** X11 - a service that resolves to no variable.  When the service
    resolves no expression to a variable or a [@let] declaration for
    the class, the facade returns the empty list, whatever the
    template. *)
Theorem no_variable_target_no_diagnostic :
  (forall a, asVarOrLet (getExpressionTarget ttc a component) = None) ->
  getDiagnosticsForComponent isSignalReference ngErrorCode ttc component = [].
Proof.
  intros Hnone. unfold getDiagnosticsForComponent.
  destruct (getTemplate ttc component) as [nodes|]; [|reflexivity].
  destruct (walk nodes) as [|d l] eqn:E; [reflexivity|exfalso].
  assert (Hd : In d (walk nodes)) by (rewrite E; now left).
  apply In_walk in Hd. destruct Hd as (e & _ & Hd).
  apply In_onEvent in Hd. destruct Hd as (x & _ & Hrw & Hd).
  destruct x as [| | | |o r n|o r n v| | | | | | | | | | |];
    try discriminate Hrw; cbn [dispatch] in Hd.
  - apply In_checkB in Hd.
    destruct Hd as (_ & _ & _ & target & symbol & Ht & _).
    rewrite Hnone in Ht. discriminate Ht.
  - apply In_checkA in Hd. destruct Hd as (_ & var & Ht & _).
    specialize (Hnone (PropertyWrite o r n v)). rewrite Ht in Hnone.
    discriminate Hnone.
Qed.

(** X12 - signals everywhere.  When every symbol of the service is a
    signal reference, Rule B reports nothing: the visit of any
    expression in any context is that of Rule A. *)
Theorem all_signals_silence_rule_B
    (h : AST) (context : TmplAstNode) (d : Diagnostics) :
  (forall symbol, isSignalReference symbol = true) ->
  exprVisit h context d = ruleA_only h context d.
Proof.
  intros Hsig. apply exprVisit_without_rule_B. intros o r n d' _.
  unfold checkForIllegalWriteInTwoWayBinding.
  destruct context; try reflexivity.
  destruct (TmplAstBoundEvent.type _); try reflexivity.
  destruct (_ || _); [reflexivity|].
  destruct (asVarOrLet _); [|reflexivity].
  destruct (getSymbolOfNode _ _ _) as [symbol|]; [|reflexivity].
  now rewrite Hsig.
Qed.

(** X13 - what every diagnostic of the walk carries.  Every diagnostic
    in the result of the walk names the class under check, has as its
    span the handler span of a bound event of the template, and its
    message and its annotation name the same declaration: the message
    is one of the three messages of the rules for the name that the
    annotation quotes. *)
Theorem walk_diagnostics_are_coherent (nodes : list TmplAstNode) :
  Forall
    (fun d =>
       diag_component d = component
       /\ exists e target,
            In e (events nodes)
            /\ diag_span d = TmplAstBoundEvent.handlerSpan e
            /\ map text (relatedMessages d)
               = ["'" ++ target_name target ++ "' is declared here."]
            /\ (messageText d = assignmentMessage (target_name target)
                \/ messageText d = twoWayMessage target))
    (walk nodes).
Proof.
  apply Forall_forall. intros d Hd.
  apply In_walk in Hd. destruct Hd as (e & He & Hd).
  apply In_onEvent in Hd. destruct Hd as (x & _ & Hrw & Hd).
  destruct x as [| | | |o r n|o r n v| | | | | | | | | | |];
    try discriminate Hrw; cbn [dispatch] in Hd.
  - apply In_checkB in Hd.
    destruct Hd as (_ & _ & _ & target & symbol & _ & _ & _ & ->).
    split; [reflexivity|]. exists e, target. auto.
  - apply In_checkA in Hd. destruct Hd as (_ & var & _ & ->).
    split; [reflexivity|]. exists e, (inl var). auto.
Qed.

(** X14 - two source wrappers.  [unwrapAstWithSource] strips one
    wrapper: for a bound event whose handler is wrapped twice, a tree of
    distinct objects, Rule B is silent and the visit is that of Rule A;
    when the expression inside the two wrappers is a bare name, the
    visit leaves the array as it is, even for a two-way binding to a
    variable that is no signal. *)
Theorem twice_wrapped_handler_is_not_unwrapped
    (e : TmplAstBoundEvent.t) (o1 o2 : oid) (inner : AST)
    (s1 s2 : option string) (d : Diagnostics) :
  TmplAstBoundEvent.handler e
    = ASTWithSource o1 (ASTWithSource o2 inner s2) s1 ->
  distinct_objects (TmplAstBoundEvent.handler e) = true ->
  unwrapAstWithSource (TmplAstBoundEvent.handler e)
    = ASTWithSource o2 inner s2
  /\ onEvent e d
     = ruleA_only (TmplAstBoundEvent.handler e) (NBoundEvent e) d
  /\ (isBareRead inner = true -> onEvent e d = d).
Proof.
  intros Hh Hd.
  assert (E : onEvent e d
              = ruleA_only (TmplAstBoundEvent.handler e) (NBoundEvent e) d).
  { rewrite (onEvent_one_rule e d Hd). cbv zeta. now rewrite Hh. }
  split; [now rewrite Hh|]. split; [exact E|].
  intros Hbare. rewrite E, Hh.
  apply bare_read_shape in Hbare. destruct Hbare as (o & r & n & -> & Hi).
  unfold ruleA_visit. cbn [visit]. now destruct r.
Qed.

End Reporting.

(** ** The wording of the messages *)

Lemma string_length_append (a b : string) :
  String.length (a ++ b) = String.length a + String.length b.
Proof. induction a as [|c a IH]; cbn; [reflexivity | now rewrite IH]. Qed.

Lemma string_append_cancel_l (p a b : string) : p ++ a = p ++ b -> a = b.
Proof.
  induction p as [|c p IH]; cbn; intros H; [exact H|].
  injection H as H. now apply IH.
Qed.

Lemma string_append_cancel_r (a b s : string) : a ++ s = b ++ s -> a = b.
Proof.
  revert b. induction a as [|c a IH]; intros [|c' b] H.
  - reflexivity.
  - apply (f_equal String.length) in H. cbn in H.
    rewrite string_length_append in H. lia.
  - apply (f_equal String.length) in H. cbn in H.
    rewrite string_length_append in H. lia.
  - cbn in H. injection H as -> H. f_equal. now apply IH.
Qed.

(** X15 - the wording tells the rule and the name.  For all names, the
    message of Rule A, the message of Rule B for a variable and the
    message of Rule B for a [@let] declaration are three different
    strings, and each message determines the name it quotes. *)
Theorem messages_tell_rule_and_name (n m : string) :
  assignmentMessage n <> twoWayVariableMessage m
  /\ assignmentMessage n <> twoWayLetMessage m
  /\ twoWayVariableMessage n <> twoWayLetMessage m
  /\ (assignmentMessage n = assignmentMessage m -> n = m)
  /\ (twoWayVariableMessage n = twoWayVariableMessage m -> n = m)
  /\ (twoWayLetMessage n = twoWayLetMessage m -> n = m).
Proof.
  unfold assignmentMessage, twoWayVariableMessage, twoWayLetMessage.
  repeat split; try (cbn; discriminate);
    intros H; apply string_append_cancel_l in H;
    now apply string_append_cancel_r in H.
Qed.

(** ** The further properties at work *)

Module Run2.

Import Fixture.

Notation checkB :=
  (checkForIllegalWriteInTwoWayBinding isSignalReference ngErrorCode checker
     AppComponent).
Notation mkDiag :=
  (makeIllegalTemplateVarDiagnostic ngErrorCode AppComponent).
Notation exprVisit :=
  (ExpressionsSemanticsVisitor_visit isSignalReference ngErrorCode checker
     AppComponent).
Notation ruleA_only := (ruleA_visit ngErrorCode checker AppComponent).
Notation onEvent :=
  (visitBoundEvent isSignalReference ngErrorCode checker AppComponent).
Notation walk :=
  (TemplateSemanticsVisitor_visit isSignalReference ngErrorCode checker
     AppComponent).
Notation Reports :=
  (Reported isSignalReference ngErrorCode checker AppComponent).

(** The chain reports both writes, the nested one too; the handler that
    is wrapped twice reports nothing. *)
Example walk_template2 :
  walk Fixture2.template
  = [ mkDiag (inl count) Fixture2.click_chain (assignmentMessage "count");
      mkDiag (inl item) Fixture2.click_chain (assignmentMessage "item");
      mkDiag (inl item) model_item (twoWayVariableMessage "item") ].
Proof. reflexivity. Qed.

Lemma walk_is_concat_over_bound_events_witness :
  flat_map boundEvents Fixture2.quiet_template = []
  /\ walk Fixture2.quiet_template = [].
Proof.
  split; [reflexivity|].
  apply (walk_is_concat_over_bound_events isSignalReference ngErrorCode
           checker AppComponent Fixture2.quiet_template).
  reflexivity.
Defined.

Lemma bound_event_reports_through_one_rule_witness :
  distinct_objects (TmplAstBoundEvent.handler model_item) = true
  /\ onEvent model_item [] = checkB (bare 201 "item") (NBoundEvent model_item) []
  /\ onEvent Fixture2.click_chain []
     = ruleA_only (TmplAstBoundEvent.handler Fixture2.click_chain)
         (NBoundEvent Fixture2.click_chain) [].
Proof.
  split; [reflexivity|]. split.
  - exact (bound_event_reports_through_one_rule isSignalReference ngErrorCode
             checker AppComponent model_item [] eq_refl).
  - exact (bound_event_reports_through_one_rule isSignalReference ngErrorCode
             checker AppComponent Fixture2.click_chain [] eq_refl).
Defined.

Lemma one_way_event_reports_writes_only_witness :
  TmplAstBoundEvent.type click_read <> TwoWay
  /\ filter isPropertyWrite (subterms (TmplAstBoundEvent.handler click_read))
     = []
  /\ onEvent click_read [] = [].
Proof.
  assert (H : TmplAstBoundEvent.type click_read <> TwoWay) by discriminate.
  split; [exact H|]. split; [reflexivity|].
  apply (proj2 (one_way_event_reports_writes_only isSignalReference
                  ngErrorCode checker AppComponent click_read [] H)).
  reflexivity.
Defined.

Lemma bound_event_diagnostics_bound_witness :
  distinct_objects (TmplAstBoundEvent.handler Fixture2.click_chain) = true
  /\ List.length (onEvent Fixture2.click_chain []) <= 2.
Proof.
  split; [reflexivity|].
  exact (bound_event_diagnostics_bound isSignalReference ngErrorCode checker
           AppComponent Fixture2.click_chain eq_refl).
Defined.

Lemma walk_reports_nothing_else_witness :
  let d := mkDiag (inl item) Fixture2.click_chain (assignmentMessage "item") in
  forallb (fun e => distinct_objects (TmplAstBoundEvent.handler e))
    (flat_map boundEvents Fixture2.template) = true
  /\ In d (walk Fixture2.template)
  /\ Reports Fixture2.template d.
Proof.
  cbv zeta.
  assert (Hin : In (mkDiag (inl item) Fixture2.click_chain
                      (assignmentMessage "item"))
                  (walk Fixture2.template))
    by (rewrite walk_template2; cbn [In]; auto).
  split; [reflexivity|]. split; [exact Hin|].
  exact (walk_reports_nothing_else isSignalReference ngErrorCode checker
           AppComponent Fixture2.template _ eq_refl Hin).
Defined.

Lemma walk_reports_every_violation_witness :
  let d := mkDiag (inl item) Fixture2.click_chain (assignmentMessage "item") in
  Reports Fixture2.template d /\ In d (walk Fixture2.template).
Proof.
  cbv zeta.
  assert (Hr : Reports Fixture2.template
                 (mkDiag (inl item) Fixture2.click_chain
                    (assignmentMessage "item"))).
  { apply (Reported_write isSignalReference ngErrorCode checker AppComponent
             Fixture2.template Fixture2.click_chain 507 (ImplicitReceiver 508)
             "item" (LiteralPrimitive 509 "1") item).
    - cbn. auto.
    - cbn. auto 10.
    - reflexivity.
    - reflexivity. }
  split; [exact Hr|].
  exact (walk_reports_every_violation isSignalReference ngErrorCode checker
           AppComponent Fixture2.template _ Hr).
Defined.

Lemma no_variable_target_no_diagnostic_witness :
  (forall a,
      asVarOrLet (getExpressionTarget Fixture2.silent a AppComponent) = None)
  /\ getDiagnosticsForComponent isSignalReference ngErrorCode Fixture2.silent
       AppComponent = [].
Proof.
  assert (H : forall a,
             asVarOrLet (getExpressionTarget Fixture2.silent a AppComponent)
             = None) by reflexivity.
  split; [exact H|].
  exact (no_variable_target_no_diagnostic isSignalReference ngErrorCode
           Fixture2.silent AppComponent H).
Defined.

Lemma all_signals_silence_rule_B_witness :
  (forall symbol, Fixture2.allSignals symbol = true)
  /\ ExpressionsSemanticsVisitor_visit Fixture2.allSignals ngErrorCode checker
       AppComponent (TmplAstBoundEvent.handler model_item)
       (NBoundEvent model_item) []
     = [].
Proof.
  assert (H : forall symbol, Fixture2.allSignals symbol = true) by reflexivity.
  split; [exact H|].
  exact (all_signals_silence_rule_B Fixture2.allSignals ngErrorCode checker
           AppComponent (TmplAstBoundEvent.handler model_item)
           (NBoundEvent model_item) [] H).
Defined.

Lemma twice_wrapped_handler_is_not_unwrapped_witness :
  TmplAstBoundEvent.handler Fixture2.model_wrapped
    = ASTWithSource 600 (ASTWithSource 601 (bare 602 "item") None) (Some "item")
  /\ distinct_objects (TmplAstBoundEvent.handler Fixture2.model_wrapped) = true
  /\ isBareRead (bare 602 "item") = true
  /\ onEvent Fixture2.model_wrapped [] = [].
Proof.
  split; [reflexivity|]. split; [reflexivity|]. split; [reflexivity|].
  apply (twice_wrapped_handler_is_not_unwrapped isSignalReference ngErrorCode
           checker AppComponent Fixture2.model_wrapped 600 601
           (bare 602 "item") (Some "item") None [] eq_refl eq_refl).
  reflexivity.
Defined.

Lemma messages_tell_rule_and_name_witness :
  twoWayLetMessage "sum" = twoWayLetMessage "sum" /\ "sum" = "sum".
Proof.
  split; [reflexivity|].
  destruct (messages_tell_rule_and_name "sum" "sum")
    as (_ & _ & _ & _ & _ & Hlet).
  apply Hlet. reflexivity.
Defined.

End Run2.
